(** * tor_requests: verified request delegation through a local Tor proxy

    A shallow embedding of [tor_requests.py] (the class
    [TorRequestsWrapper] and the decorator [tor_request]) and the
    properties of its connection check and of its HTTP verb methods.

    The module talks to the outside through two channels only: calls into
    the [requests] library and lines printed on standard output.  Both are
    made explicit: a [World] records the requests sent so far and the lines
    printed so far, and the answers of the network are an arbitrary
    function [http] of the number of the call and of the request sent. *)

From stdpp Require Import base strings gmap list pretty.
From Stdlib Require Import ZArith Lia.

Set Warnings "-register-all".
Open Scope Z_scope.

(** ** Python values, exceptions and results *)

(** The exception classes the module distinguishes.  [RequestException]
    stands for [requests.RequestException] and its subclasses,
    [SocketError] for [socket.error] (that is [OSError]) outside that
    class, [KeyError] for a failed subscript, [Exception] for the plain
    [Exception] the module raises itself, [OtherError] for anything else.
    The string is [str(e)]. *)
Inductive exn : Type :=
  | RequestException (msg : string)
  | SocketError (msg : string)
  | KeyError (key : string)
  | Exception (msg : string)
  | OtherError (msg : string).

(** A call either returns a value or raises. *)
Inductive result (A : Type) : Type :=
  | Return (a : A)
  | Raise (e : exn).
Arguments Return {A} a.
Arguments Raise {A} e.

(** Values a caller hands over as positional or keyword arguments. *)
Inductive pyval : Type :=
  | PyNone
  | PyBool (b : bool)
  | PyInt (z : Z)
  | PyStr (s : string)
  | PyList (l : list pyval)
  | PyDict (d : gmap string pyval).

(** The functions of [requests] the module reaches through
    [getattr(requests, method)]: 'get', 'post', 'put' and 'delete'. *)
Inductive Verb : Type := GET | POST | PUT | DELETE.

(** One call of a function of [requests] with its positional and its
    keyword arguments. *)
Record Request : Type := mkRequest {
  method : Verb;
  args : list pyval;
  kwargs : gmap string pyval
}.

(** What the module reads of a response: [response.json()] either raises
    or yields the decoded body.  The IP-check service answers with
    [{"ip": "<string>"}]; the decoded body is taken to be an object with
    string fields.  The other attributes are the caller's business. *)
Record Response : Type := mkResponse {
  status_code : Z;
  text : string;
  json : result (gmap string string)
}.

(** The observable world: requests sent (oldest first) and lines
    printed (oldest first). *)
Record World : Type := mkWorld {
  net_log : list Request;
  stdout : list string
}.

Definition log_request (w : World) (req : Request) : World :=
  {| net_log := net_log w ++ [req]; stdout := stdout w |}.

Definition print_line (w : World) (line : string) : World :=
  {| net_log := net_log w; stdout := stdout w ++ [line] |}.

(** Truth value of a Python string: only the empty string is false. *)
Definition truthy_str (s : string) : bool := negb (String.eqb s "").

(** Truth value of [None] or a string. *)
Definition truthy_opt_str (o : option string) : bool :=
  match o with
  | None => false
  | Some s => truthy_str s
  end.

(** Truth value of [None] or a dict: an empty dict is false. *)
Definition truthy_opt_dict (o : option (gmap string string)) : bool :=
  match o with
  | None => false
  | Some d => bool_decide (d ≠ ∅)
  end.

(** [self.proxies] as a keyword argument value. *)
Definition proxies_val (o : option (gmap string string)) : pyval :=
  match o with
  | None => PyNone
  | Some d => PyDict (PyStr <$> d)
  end.

(** Binding of the keyword arguments of a call: a keyword that names a
    parameter the call has already bound positionally is refused by
    Python ("got multiple values for argument"). *)
Definition collides (params : list string) (kwargs : gmap string pyval) : bool :=
  existsb (λ name, bool_decide (is_Some (kwargs !! name))) params.

(** ** The class TorRequestsWrapper *)

Module TorRequestsWrapper.

(** The attributes of an instance. *)
Record t : Type := mk {
  tor_ports : list Z;
  timeout : Z;
  ip_check_url : string;
  proxies : option (gmap string string)
}.

Definition default_tor_ports : list Z := [9150; 9050].
Definition default_timeout : Z := 10.

(** [__init__(self, tor_ports=[9150, 9050], timeout=10)] *)
Definition __init__ (tor_ports : list Z) (timeout : Z) : t :=
  {| tor_ports := tor_ports;
     timeout := timeout;
     ip_check_url := "https://api.ipify.org?format=json";
     proxies := None |}.

(** [self.proxies = p] *)
Definition set_proxies (self : t) (p : option (gmap string string)) : t :=
  {| tor_ports := tor_ports self;
     timeout := timeout self;
     ip_check_url := ip_check_url self;
     proxies := p |}.

(** [_create_proxies(self, port)]; [pretty] prints the port in decimal as
    the f-string does. *)
Definition _create_proxies (port : Z) : gmap string string :=
  {[ "http" := "socks5h://127.0.0.1:" +:+ pretty port;
     "https" := "socks5h://127.0.0.1:" +:+ pretty port ]}.

(** Methods run on an instance and a world, change both, and return or
    raise.  What a method did before it raised stays done. *)
Definition Py (A : Type) : Type := t → World → result A * t * World.

#[global] Instance Py_ret : MRet Py := λ A a self w, (Return a, self, w).

#[global] Instance Py_bind : MBind Py := λ A B k m self w,
  match m self w with
  | (Return a, self', w') => k a self' w'
  | (Raise e, self', w') => (Raise e, self', w')
  end.

Definition raise {A : Type} (e : exn) : Py A := λ self w, (Raise e, self, w).

(** [try: body except ...:], the handler choosing the clause (if any)
    that catches the exception. *)
Definition try_except {A : Type} (body : Py A) (handler : exn → option (Py A)) : Py A :=
  λ self w,
    match body self w with
    | (Return a, self', w') => (Return a, self', w')
    | (Raise e, self', w') =>
        match handler e with
        | Some clause => clause self' w'
        | None => (Raise e, self', w')
        end
    end.

Definition get_self : Py t := λ self w, (Return self, self, w).

Definition assign_proxies (p : option (gmap string string)) : Py unit :=
  λ self w, (Return tt, set_proxies self p, w).

Definition print (line : string) : Py unit :=
  λ self w, (Return tt, self, print_line w line).

Section Network.

(** The answer of the [requests] library to the n-th call of the run
    (counted from 0) when that call is [req]. *)
Variable http : nat → Request → result Response.

Definition requests (req : Request) : Py Response :=
  λ self w, (http (length (net_log w)) req, self, log_request w req).

(** [response.json()['ip']] *)
Definition json_ip (response : Response) : Py string :=
  match json response with
  | Raise e => raise e
  | Return body =>
      match body !! "ip" with
      | Some ip => mret ip
      | None => raise (KeyError "ip")
      end
  end.

(** [_get_direct_ip(self)] *)
Definition _get_direct_ip : Py (option string) :=
  try_except
    (self ← get_self;
     response ← requests {| method := GET;
                            args := [PyStr (ip_check_url self)];
                            kwargs := {[ "timeout" := PyInt (timeout self) ]} |};
     ip ← json_ip response;
     mret (Some ip))
    (λ e, match e with
          | RequestException msg =>
              Some (print ("Error getting direct IP: " +:+ msg);; mret None)
          | _ => None
          end).

(** [_get_tor_ip(self)]; its except clause raises the exception again. *)
Definition _get_tor_ip : Py string :=
  try_except
    (self ← get_self;
     response ← requests {| method := GET;
                            args := [PyStr (ip_check_url self)];
                            kwargs := {[ "proxies" := proxies_val (proxies self);
                                         "timeout" := PyInt (timeout self) ]} |};
     json_ip response)
    (λ e, match e with
          | RequestException msg => Some (raise (RequestException msg))
          | _ => None
          end).

(** The loop [for port in self.tor_ports] of [check_tor_connection]:
    [Some b] when the body executed [return b], [None] when the loop ran
    to its end. *)
Fixpoint for_port_in (direct_ip : option string) (ports : list Z) : Py (option bool) :=
  match ports with
  | [] => mret None
  | port :: rest =>
      returned ← try_except
        (assign_proxies (Some (_create_proxies port));;
         tor_ip ← _get_tor_ip;
         if truthy_str tor_ip && bool_decide (Some tor_ip ≠ direct_ip)
         then print ("Connected to Tor! Tor IP: " +:+ tor_ip);; mret (Some true)
         else mret None)
        (λ e, match e with
              | RequestException msg =>
                  Some (print ("Error checking Tor connection on port "
                               +:+ pretty port +:+ ": " +:+ msg);; mret None)
              | SocketError msg =>
                  Some (print ("Socket error on port "
                               +:+ pretty port +:+ ": " +:+ msg);; mret None)
              | _ => None
              end);
      match returned with
      | Some b => mret (Some b)
      | None => for_port_in direct_ip rest
      end
  end.

(** [check_tor_connection(self)] *)
Definition check_tor_connection : Py bool :=
  direct_ip ← _get_direct_ip;
  (if negb (truthy_opt_str direct_ip)
   then print "Warning: Unable to get direct IP. Continuing with Tor check..."
   else mret tt);;
  self ← get_self;
  returned ← for_port_in direct_ip (tor_ports self);
  match returned with
  | Some b => mret b
  | None =>
      print "Tor connection failed. Unable to connect through any configured port.";;
      mret false
  end.

(** [_tor_request(self, method, *args, **kwargs)].  The parameters [self]
    and [method] are bound positionally by every caller; a keyword of one
    of these names makes the call raise a [TypeError] (its message is not
    modelled) before the body runs. *)
Definition _tor_request (method : Verb) (args : list pyval)
    (kwargs : gmap string pyval) : Py Response :=
  if collides ["self"; "method"] kwargs then raise (OtherError "TypeError")
  else
    self ← get_self;
    if negb (truthy_opt_dict (proxies self))
    then raise (Exception "Tor proxy not configured. Run check_tor_connection() first.")
    else requests {| method := method;
                     args := args;
                     kwargs := <["proxies" := proxies_val (proxies self)]> kwargs |}.

(** [get(self, *args, **kwargs)] and the other verb methods: a keyword
    named 'self' collides with their own parameter; the other keywords go
    to [_tor_request]. *)
Definition get (args : list pyval) (kwargs : gmap string pyval) : Py Response :=
  if collides ["self"] kwargs then raise (OtherError "TypeError")
  else _tor_request GET args kwargs.

Definition post (args : list pyval) (kwargs : gmap string pyval) : Py Response :=
  if collides ["self"] kwargs then raise (OtherError "TypeError")
  else _tor_request POST args kwargs.

Definition put (args : list pyval) (kwargs : gmap string pyval) : Py Response :=
  if collides ["self"] kwargs then raise (OtherError "TypeError")
  else _tor_request PUT args kwargs.

Definition delete (args : list pyval) (kwargs : gmap string pyval) : Py Response :=
  if collides ["self"] kwargs then raise (OtherError "TypeError")
  else _tor_request DELETE args kwargs.

End Network.

End TorRequestsWrapper.

(** ** The decorator tor_request *)

Section Decorator.

Variable http : nat → Request → result Response.

(** The result type of the decorated function. *)
Context {R : Type}.

(** A decorated function: it receives the client as its first positional
    argument, then the caller's positional and keyword arguments, and
    acts on the world. *)
Definition Func : Type :=
  TorRequestsWrapper.t → list pyval → gmap string pyval → World → result R * World.

(** [tor_request(func)]: the function [wrapper] it returns. *)
Definition tor_request (func : Func)
    (args : list pyval) (kwargs : gmap string pyval) (w : World) : result R * World :=
  let tor := TorRequestsWrapper.__init__ TorRequestsWrapper.default_tor_ports
                                         TorRequestsWrapper.default_timeout in
  match TorRequestsWrapper.check_tor_connection http tor w with
  | (Return true, tor', w') => func tor' args kwargs w'
  | (Return false, _, w') =>
      (Raise (Exception
         "Tor connection failed. Make sure Tor is running and configured correctly."), w')
  | (Raise e, _, w') => (Raise e, w')
  end.

End Decorator.

(** ** Sessions: a caller using one client *)

(** The public operations of a client. *)
Inductive Op : Type :=
  | CheckTorConnection
  | VerbCall (method : Verb) (args : list pyval) (kwargs : gmap string pyval).

Section Session.

Variable http : nat → Request → result Response.

(** The caller invokes a verb method by its name. *)
Definition call_verb (method : Verb) : list pyval → gmap string pyval →
    TorRequestsWrapper.Py Response :=
  match method with
  | GET => TorRequestsWrapper.get http
  | POST => TorRequestsWrapper.post http
  | PUT => TorRequestsWrapper.put http
  | DELETE => TorRequestsWrapper.delete http
  end.

(** One operation; the caller goes on with the same client whether the
    operation returned or raised. *)
Definition run_op (op : Op) (self : TorRequestsWrapper.t) (w : World) :
    TorRequestsWrapper.t * World :=
  match op with
  | CheckTorConnection =>
      let '(_, self', w') := TorRequestsWrapper.check_tor_connection http self w in
      (self', w')
  | VerbCall method args kwargs =>
      let '(_, self', w') := call_verb method args kwargs self w in
      (self', w')
  end.

Fixpoint run_ops (ops : list Op) (self : TorRequestsWrapper.t) (w : World) :
    TorRequestsWrapper.t * World :=
  match ops with
  | [] => (self, w)
  | op :: rest =>
      let '(self', w') := run_op op self w in
      run_ops rest self' w'
  end.

End Session.

(** ** The probes of the connection check, read off the methods *)

Import TorRequestsWrapper.

(** The request [_get_direct_ip] sends. *)
Definition direct_request (self : t) : Request :=
  {| method := GET;
     args := [PyStr (ip_check_url self)];
     kwargs := {[ "timeout" := PyInt (timeout self) ]} |}.

(** The request [_get_tor_ip] sends once [self.proxies] holds the
    settings of [port]. *)
Definition proxied_request (self : t) (port : Z) : Request :=
  {| method := GET;
     args := [PyStr (ip_check_url self)];
     kwargs := {[ "proxies" := proxies_val (Some (_create_proxies port));
                  "timeout" := PyInt (timeout self) ]} |}.

(** What [response.json()['ip']] makes of an answer of the network. *)
Definition read_ip (answer : result Response) : result string :=
  match answer with
  | Raise e => Raise e
  | Return response =>
      match json response with
      | Raise e => Raise e
      | Return body =>
          match body !! "ip" with
          | Some ip => Return ip
          | None => Raise (KeyError "ip")
          end
      end
  end.

(** The probe through [port] when it is the n-th call of the run. *)
Definition probe_at (http : nat → Request → result Response)
    (self : t) (n : nat) (port : Z) : result string :=
  read_ip (http n (proxied_request self port)).

(** The verdict of the loop body on one port: the port works and the
    method returns [True]; the port is given up, with or without a
    printed line, and the loop goes on; or an exception leaves the loop. *)
Inductive Verdict : Type :=
  | Working (tor_ip : string)
  | Skipped (line : option string)
  | Aborted (e : exn).

Definition verdict (direct_ip : option string) (port : Z) (probed : result string) : Verdict :=
  match probed with
  | Return tor_ip =>
      if truthy_str tor_ip && bool_decide (Some tor_ip ≠ direct_ip)
      then Working tor_ip
      else Skipped None
  | Raise (RequestException msg) =>
      Skipped (Some ("Error checking Tor connection on port "
                     +:+ pretty port +:+ ": " +:+ msg))
  | Raise (SocketError msg) =>
      Skipped (Some ("Socket error on port " +:+ pretty port +:+ ": " +:+ msg))
  | Raise e => Aborted e
  end.

Definition is_skipped (v : Verdict) : bool :=
  match v with
  | Skipped _ => true
  | _ => false
  end.

Definition print_opt (w : World) (line : option string) : World :=
  match line with
  | Some l => print_line w l
  | None => w
  end.

(** The instance once the loop has gone through all of [ports]: every
    turn assigns [self.proxies] before it probes. *)
Definition after_ports (self : t) (ports : list Z) : t :=
  match last ports with
  | Some port => set_proxies self (Some (_create_proxies port))
  | None => self
  end.

(** A verb call as an operation of a session. *)
Definition verb_op (call : Verb * list pyval * gmap string pyval) : Op :=
  let '(method, args, kwargs) := call in VerbCall method args kwargs.

(** ** Scenarios *)

Definition home_ip : string := "203.0.113.7".
Definition exit_ip : string := "185.220.101.34".

Definition ip_response (ip : string) : Response :=
  {| status_code := 200; text := ip; json := Return {[ "ip" := ip ]} |}.

(** A body that parses and has no field 'ip'. *)
Definition no_ip_response : Response :=
  {| status_code := 429;
     text := "rate limited";
     json := Return {[ "error" := "rate limited" ]} |}.

Definition empty_world : World := {| net_log := []; stdout := [] |}.

(** The network answers the calls of the run from a script, and refuses
    the connection once the script is over. *)
Definition scripted (answers : list (result Response)) : nat → Request → result Response :=
  λ n _, default (Raise (RequestException "connection refused")) (answers !! n).

(** A proxy listens on every port and does not anonymize: every answer
    shows the caller's own address. *)
Definition not_anonymizing : nat → Request → result Response :=
  λ _ _, Return (ip_response home_ip).

(** Tor answers on every port: requests with a proxy leave from the exit
    node, requests without one from the caller's address. *)
Definition tor_running : nat → Request → result Response :=
  λ _ req,
    match kwargs req !! "proxies" with
    | Some (PyDict _) => Return (ip_response exit_ip)
    | _ => Return (ip_response home_ip)
    end.

(** ** Requests routed through a configured port *)

(** The request carries, as its 'proxies' option, the settings of one of
    [ports]. *)
Definition via_configured_port (ports : list Z) (req : Request) : Prop :=
  ∃ port, port ∈ ports
    ∧ kwargs req !! "proxies" = Some (proxies_val (Some (_create_proxies port))).

(** The [proxies] field is [None] or holds the settings of one of the
    candidate ports of the client. *)
Definition proxies_of_candidate (self : t) : Prop :=
  proxies self = None
  ∨ ∃ port, port ∈ tor_ports self ∧ proxies self = Some (_create_proxies port).

(** Between the worlds [w] and [w'] requests were only added to the log,
    and every request added satisfies [P]. *)
Definition sends_only (P : Request → Prop) (w w' : World) : Prop :=
  ∃ new, net_log w' = net_log w ++ new ∧ Forall P new.

(** The line the loop prints for a port whose probe raised a
    [requests.RequestException]. *)
Definition port_error_line (msg : string) (port : Z) : string :=
  "Error checking Tor connection on port " +:+ pretty port +:+ ": " +:+ msg.

(** ** The script example.py *)

Module ExampleScript.

(** [str(e)]; for a [KeyError] it is the key between quotes. *)
Definition str_exn (e : exn) : string :=
  match e with
  | RequestException msg => msg
  | SocketError msg => msg
  | KeyError key => "'" +:+ key +:+ "'"
  | Exception msg => msg
  | OtherError msg => msg
  end.

Section Script.

Variable http : nat → Request → result Response.

(** The body of [fetch_webpage(tor, url)]. *)
Definition fetch_webpage_body (tor : TorRequestsWrapper.t) (url : pyval) (w : World) :
    result string * World :=
  match get http [url] ∅ tor w with
  | (Return response, _, w') => (Return (text response), w')
  | (Raise e, _, w') => (Raise e, w')
  end.

(** [fetch_webpage] before decoration: [url] is bound to the one
    positional argument after [tor], or to the keyword 'url'; a call of
    another shape raises a [TypeError] (its message is not modelled). *)
Definition fetch_webpage_func (tor : TorRequestsWrapper.t) (a : list pyval)
    (kw : gmap string pyval) (w : World) : result string * World :=
  match a with
  | [url] =>
      if bool_decide (dom kw = ∅) then fetch_webpage_body tor url w
      else (Raise (OtherError "TypeError"), w)
  | [] =>
      match kw !! "url" with
      | Some url =>
          if bool_decide (dom kw = {[ "url" ]}) then fetch_webpage_body tor url w
          else (Raise (OtherError "TypeError"), w)
      | None => (Raise (OtherError "TypeError"), w)
      end
  | _ => (Raise (OtherError "TypeError"), w)
  end.

(** [fetch_webpage], decorated with [@tor_request]. *)
Definition fetch_webpage (a : list pyval) (kw : gmap string pyval) (w : World) :
    result string * World :=
  tor_request http fetch_webpage_func a kw w.

(** The statements of [main] inside [try:]. *)
Definition main_try (w : World) : result unit * World :=
  let w := print_line w "Example 1: Using decorator" in
  match fetch_webpage [PyStr "https://example.com"] ∅ w with
  | (Raise e, w) => (Raise e, w)
  | (Return content, w) =>
      let w := print_line w (String.substring 0%nat 100%nat content) in
      let w := print_line w (String (Ascii.ascii_of_nat 10) "Example 2: Direct class usage") in
      let tor := __init__ default_tor_ports default_timeout in
      match check_tor_connection http tor w with
      | (Raise e, _, w) => (Raise e, w)
      | (Return false, _, w) => (Return tt, w)
      | (Return true, tor, w) =>
          match get http [PyStr "https://example.com"] ∅ tor w with
          | (Raise e, _, w) => (Raise e, w)
          | (Return response, tor, w) =>
              let w := print_line w (String.substring 0%nat 100%nat (text response)) in
              match post http [PyStr "https://example.com/api"]
                      {[ "json" := PyDict {[ "key" := PyStr "value" ]} ]} tor w with
              | (Raise e, _, w) => (Raise e, w)
              | (Return response, _, w) =>
                  (Return tt, print_line w (pretty (status_code response)))
              end
          end
      end
  end.

(** [main()]: every exception of the classes modelled here is an
    [Exception] and is caught by [except Exception as e]. *)
Definition main (w : World) : result unit * World :=
  match main_try w with
  | (Raise e, w) => (Return tt, print_line w ("Error: " +:+ str_exn e))
  | (Return _, w) => (Return tt, w)
  end.

End Script.

End ExampleScript.

(** ** Lemmas on the methods *)

Section Probes.

Variable http : nat → Request → result Response.

Lemma _get_direct_ip_unfold (self : t) (w : World) :
  _get_direct_ip http self w =
  match read_ip (http (length (net_log w)) (direct_request self)) with
  | Return ip => (Return (Some ip), self, log_request w (direct_request self))
  | Raise (RequestException msg) =>
      (Return None, self,
       print_line (log_request w (direct_request self))
                  ("Error getting direct IP: " +:+ msg))
  | Raise e => (Raise e, self, log_request w (direct_request self))
  end.
Proof.
  unfold _get_direct_ip, try_except, mbind, Py_bind, get_self, requests, json_ip,
    read_ip, direct_request.
  destruct (http _ _) as [response|e]; simpl.
  - destruct (json response) as [body|e]; simpl.
    + destruct (body !! "ip"); reflexivity.
    + destruct e; reflexivity.
  - destruct e; reflexivity.
Qed.

(** One turn of the loop. *)
Lemma for_port_in_cons (direct_ip : option string) (port : Z) (rest : list Z)
    (self : t) (w : World) :
  let self1 := set_proxies self (Some (_create_proxies port)) in
  let w1 := log_request w (proxied_request self port) in
  for_port_in http direct_ip (port :: rest) self w =
  match verdict direct_ip port (probe_at http self (length (net_log w)) port) with
  | Working tor_ip =>
      (Return (Some true), self1, print_line w1 ("Connected to Tor! Tor IP: " +:+ tor_ip))
  | Skipped line => for_port_in http direct_ip rest self1 (print_opt w1 line)
  | Aborted e => (Raise e, self1, w1)
  end.
Proof.
  simpl. unfold probe_at, verdict, read_ip, proxied_request.
  unfold try_except, mbind, Py_bind, assign_proxies, _get_tor_ip, try_except,
    mbind, Py_bind, get_self, requests, json_ip; simpl.
  destruct (http _ _) as [response|e]; simpl.
  - destruct (json response) as [body|e]; simpl.
    + destruct (body !! "ip") as [ip|]; simpl; [|reflexivity].
      destruct (truthy_str ip && bool_decide (Some ip ≠ direct_ip)); reflexivity.
    + destruct e; reflexivity.
  - destruct e; reflexivity.
Qed.

(** The method as a whole: the direct probe, the warning, the loop, the
    last line. *)
Lemma check_tor_connection_unfold (self : t) (w : World) :
  check_tor_connection http self w =
  match _get_direct_ip http self w with
  | (Raise e, self1, w1) => (Raise e, self1, w1)
  | (Return direct_ip, self1, w1) =>
      let w2 := if negb (truthy_opt_str direct_ip)
                then print_line w1 "Warning: Unable to get direct IP. Continuing with Tor check..."
                else w1 in
      match for_port_in http direct_ip (tor_ports self1) self1 w2 with
      | (Raise e, self3, w3) => (Raise e, self3, w3)
      | (Return (Some b), self3, w3) => (Return b, self3, w3)
      | (Return None, self3, w3) =>
          (Return false, self3,
           print_line w3 "Tor connection failed. Unable to connect through any configured port.")
      end
  end.
Proof.
  unfold check_tor_connection, mbind, Py_bind.
  destruct (_get_direct_ip http self w) as [[[direct_ip|e] self1] w1]; [|reflexivity].
  destruct (negb (truthy_opt_str direct_ip)); simpl;
    destruct (for_port_in _ _ _ _ _) as [[[[b|]|e] self3] w3]; reflexivity.
Qed.

End Probes.

Section Loop.

Variable http : nat → Request → result Response.

Lemma net_log_print_opt (w : World) (line : option string) :
  net_log (print_opt w line) = net_log w.
Proof. destruct line; reflexivity. Qed.

Lemma after_ports_cons (self : t) (port : Z) (ports : list Z) :
  after_ports (set_proxies self (Some (_create_proxies port))) ports =
  after_ports self (port :: ports).
Proof.
  unfold after_ports. rewrite last_cons.
  destruct (last ports); reflexivity.
Qed.

(** The direct probe sends one request and leaves the instance alone. *)
Lemma _get_direct_ip_returns (self self1 : t) (w w1 : World) (direct_ip : option string) :
  _get_direct_ip http self w = (Return direct_ip, self1, w1) →
  self1 = self ∧ net_log w1 = net_log w ++ [direct_request self].
Proof.
  rewrite _get_direct_ip_unfold.
  destruct (read_ip _) as [ip|[]]; intros [= <- <- <-]; split; reflexivity.
Qed.

(** The loop goes through a prefix of ports that are all given up. *)
Lemma for_port_in_skip (direct_ip : option string) (pre rest : list Z) :
  ∀ (self : t) (w : World),
  (∀ (i : nat) (p : Z), pre !! i = Some p →
     is_skipped (verdict direct_ip p
                   (probe_at http self (length (net_log w) + i)%nat p)) = true) →
  ∃ w', for_port_in http direct_ip (pre ++ rest) self w =
        for_port_in http direct_ip rest (after_ports self pre) w'
        ∧ net_log w' = net_log w ++ map (proxied_request self) pre.
Proof.
  induction pre as [|port pre IH]; intros self w Hskip.
  - exists w. split; [reflexivity|]. simpl. by rewrite app_nil_r.
  - change ((port :: pre) ++ rest) with (port :: (pre ++ rest)).
    rewrite for_port_in_cons.
    pose proof (Hskip 0%nat port eq_refl) as H0.
    rewrite Nat.add_0_r in H0.
    destruct (verdict _ _ _) as [ip|line|e]; try discriminate H0.
    set (self1 := set_proxies self (Some (_create_proxies port))).
    set (w1 := print_opt (log_request w (proxied_request self port)) line).
    destruct (IH self1 w1) as (w' & Hrun & Hlog).
    + intros i p Hp.
      replace (length (net_log w1) + i)%nat with (length (net_log w) + S i)%nat.
      * exact (Hskip (S i) p Hp).
      * unfold w1. rewrite net_log_print_opt. simpl. rewrite length_app. simpl. lia.
    + exists w'. split.
      * rewrite Hrun. unfold self1. by rewrite after_ports_cons.
      * rewrite Hlog. unfold w1. rewrite net_log_print_opt. simpl.
        by rewrite <- app_assoc.
Qed.

(** The loop never changes the configuration of the instance. *)
Lemma for_port_in_config (direct_ip : option string) (ports : list Z) :
  ∀ (self self' : t) (w w' : World) (r : result (option bool)),
  for_port_in http direct_ip ports self w = (r, self', w') →
  tor_ports self' = tor_ports self ∧ timeout self' = timeout self
  ∧ ip_check_url self' = ip_check_url self.
Proof.
  induction ports as [|port rest IH]; intros self self' w w' r.
  - intros [= <- <- <-]. auto.
  - rewrite for_port_in_cons.
    destruct (verdict _ _ _) as [ip|line|e].
    + intros [= <- <- <-]. auto.
    + intros Hrest. apply IH in Hrest. exact Hrest.
    + intros [= <- <- <-]. auto.
Qed.

(** When the loop runs to its end every port has been probed, in order,
    and the settings of the last one are left in the instance. *)
Lemma for_port_in_exhausted (direct_ip : option string) (ports : list Z) :
  ∀ (self self' : t) (w w' : World),
  for_port_in http direct_ip ports self w = (Return None, self', w') →
  self' = after_ports self ports
  ∧ net_log w' = net_log w ++ map (proxied_request self) ports.
Proof.
  induction ports as [|port rest IH]; intros self self' w w'.
  - intros [= <- <-]. split; [reflexivity|]. simpl. by rewrite app_nil_r.
  - rewrite for_port_in_cons.
    destruct (verdict _ _ _) as [ip|line|e]; try discriminate.
    intros Hrest. apply IH in Hrest as [-> ->]. split.
    + by rewrite after_ports_cons.
    + rewrite net_log_print_opt. simpl. by rewrite <- app_assoc.
Qed.

(** When the loop returns, it returns [True], at a port of the list, with
    that port's settings stored and that port's probe the last request. *)
Lemma for_port_in_returned (direct_ip : option string) (ports : list Z) :
  ∀ (self self' : t) (w w' : World) (b : bool),
  for_port_in http direct_ip ports self w = (Return (Some b), self', w') →
  b = true ∧ ∃ pre port post,
    ports = pre ++ port :: post
    ∧ self' = set_proxies self (Some (_create_proxies port))
    ∧ net_log w' = net_log w ++ map (proxied_request self) (pre ++ [port]).
Proof.
  induction ports as [|port rest IH]; intros self self' w w' b.
  - discriminate.
  - rewrite for_port_in_cons.
    destruct (verdict _ _ _) as [ip|line|e]; try discriminate.
    + intros [= <- <- <-]. split; [reflexivity|].
      exists [], port, rest. repeat split; reflexivity.
    + intros Hrest. apply IH in Hrest as (-> & pre & p & post & -> & -> & ->).
      split; [reflexivity|].
      exists (port :: pre), p, post. repeat split.
      rewrite net_log_print_opt. simpl. by rewrite <- app_assoc.
Qed.

End Loop.

Section Verification.

Variable http : nat → Request → result Response.

Lemma truthy_str_true (s : string) : s ≠ "" → truthy_str s = true.
Proof.
  intros Hs. unfold truthy_str. apply negb_true_iff. by apply String.eqb_neq.
Qed.

Lemma verdict_working (direct_ip : option string) (port : Z) (tor_ip : string) :
  tor_ip ≠ "" → Some tor_ip ≠ direct_ip →
  verdict direct_ip port (Return tor_ip) = Working tor_ip.
Proof.
  intros Hs Hd. unfold verdict.
  rewrite truthy_str_true by done. by rewrite bool_decide_eq_true_2.
Qed.

(** [check_tor_connection] never changes the configuration. *)
Lemma check_tor_connection_config (self self' : t) (w w' : World) (r : result bool) :
  check_tor_connection http self w = (r, self', w') →
  tor_ports self' = tor_ports self ∧ timeout self' = timeout self
  ∧ ip_check_url self' = ip_check_url self.
Proof.
  rewrite check_tor_connection_unfold.
  destruct (_get_direct_ip http self w) as [[[direct_ip|e] self1] w1] eqn:Hdirect.
  - apply _get_direct_ip_returns in Hdirect as [-> _]. simpl.
    destruct (for_port_in _ _ _ _ _) as [[r3 self3] w3] eqn:Hloop.
    apply for_port_in_config in Hloop.
    destruct r3 as [[b|]|e]; intros [= <- <- <-]; exact Hloop.
  - rewrite _get_direct_ip_unfold in Hdirect.
    destruct (read_ip _) as [ip|[]]; try discriminate Hdirect;
      injection Hdirect as ? ? ?; subst; intros [= <- <- <-]; auto.
Qed.

(** A check that returns [False] has gone through all the ports. *)
Lemma check_tor_connection_false (self self' : t) (w w' : World) :
  check_tor_connection http self w = (Return false, self', w') →
  self' = after_ports self (tor_ports self).
Proof.
  rewrite check_tor_connection_unfold.
  destruct (_get_direct_ip http self w) as [[[direct_ip|e] self1] w1] eqn:Hdirect;
    [|discriminate].
  apply _get_direct_ip_returns in Hdirect as [-> _]. simpl.
  destruct (for_port_in _ _ _ _ _) as [[[[b|]|e] self3] w3] eqn:Hloop.
  - apply for_port_in_returned in Hloop as [-> _]. discriminate.
  - apply for_port_in_exhausted in Hloop as [-> _]. by intros [= <-].
  - discriminate.
Qed.

(** A check that returns [True] has stored the settings of the port it
    probed last. *)
Lemma check_tor_connection_true (self self' : t) (w w' : World) :
  check_tor_connection http self w = (Return true, self', w') →
  ∃ port, port ∈ tor_ports self
    ∧ self' = set_proxies self (Some (_create_proxies port))
    ∧ last (net_log w') = Some (proxied_request self port).
Proof.
  rewrite check_tor_connection_unfold.
  destruct (_get_direct_ip http self w) as [[[direct_ip|e] self1] w1] eqn:Hdirect;
    [|discriminate].
  apply _get_direct_ip_returns in Hdirect as [-> _]. simpl.
  destruct (for_port_in _ _ _ _ _) as [[[[b|]|e] self3] w3] eqn:Hloop;
    try discriminate.
  apply for_port_in_returned in Hloop as (-> & pre & port & post & Hports & -> & Hlog).
  intros [= <- <-]. exists port. split; [|split; [reflexivity|]].
  - rewrite Hports. set_solver.
  - rewrite Hlog, map_app, app_assoc. simpl. by rewrite last_snoc.
Qed.

(** The check up to the first port that is not given up: when that port
    works the method returns [True], when its probe raises an exception
    that is not caught the method raises it; either way the requests sent
    are the direct probe and the probes of the ports up to that one. *)
Lemma check_tor_connection_at (self self1 : t) (w w1 : World)
    (direct_ip : option string) (pre rest : list Z) (port : Z) :
  _get_direct_ip http self w = (Return direct_ip, self1, w1) →
  tor_ports self = pre ++ port :: rest →
  (∀ (i : nat) (p : Z), pre !! i = Some p →
     is_skipped (verdict direct_ip p
                   (probe_at http self (length (net_log w) + 1 + i)%nat p)) = true) →
  ∃ w', net_log w' = net_log w ++ direct_request self
                       :: map (proxied_request self) (pre ++ [port])
    ∧ match verdict direct_ip port
              (probe_at http self (length (net_log w) + 1 + length pre)%nat port) with
      | Working tor_ip =>
          check_tor_connection http self w =
          (Return true, set_proxies self (Some (_create_proxies port)),
           print_line w' ("Connected to Tor! Tor IP: " +:+ tor_ip))
      | Aborted e =>
          check_tor_connection http self w =
          (Raise e, set_proxies self (Some (_create_proxies port)), w')
      | Skipped _ => True
      end.
Proof.
  intros Hdirect Hports Hskip.
  rewrite check_tor_connection_unfold, Hdirect.
  apply _get_direct_ip_returns in Hdirect as [-> Hlog1]. cbv zeta.
  set (w2 := if negb (truthy_opt_str direct_ip) then _ else w1).
  assert (Hlog2 : net_log w2 = net_log w ++ [direct_request self]).
  { unfold w2. destruct (negb _); exact Hlog1. }
  assert (Hlen : length (net_log w2) = (length (net_log w) + 1)%nat).
  { rewrite Hlog2, length_app. reflexivity. }
  rewrite Hports.
  destruct (for_port_in_skip http direct_ip pre (port :: rest) self w2)
    as (w3 & Hrun & Hlog3).
  { intros i p Hp. rewrite Hlen. by apply Hskip. }
  rewrite Hrun, for_port_in_cons.
  assert (Hreq : proxied_request (after_ports self pre) port = proxied_request self port).
  { unfold after_ports. destruct (last pre); reflexivity. }
  assert (Hset : set_proxies (after_ports self pre) (Some (_create_proxies port))
                 = set_proxies self (Some (_create_proxies port))).
  { unfold after_ports. destruct (last pre); reflexivity. }
  assert (Hprobe : probe_at http (after_ports self pre) (length (net_log w3)) port
                   = probe_at http self (length (net_log w) + 1 + length pre)%nat port).
  { unfold probe_at. rewrite Hreq, Hlog3, Hlog2, !length_app, length_map. reflexivity. }
  rewrite Hprobe, Hreq, Hset.
  exists (log_request w3 (proxied_request self port)). split.
  - simpl. rewrite Hlog3, Hlog2, map_app, <- !app_assoc. reflexivity.
  - destruct (verdict _ _ _); done.
Qed.

Lemma collides_none (kwargs : gmap string pyval) :
  kwargs !! "self" = None → kwargs !! "method" = None →
  collides ["self"; "method"] kwargs = false.
Proof.
  intros Hself Hmethod. unfold collides. simpl. rewrite Hself, Hmethod.
  rewrite !bool_decide_eq_false_2; [reflexivity|by intros [x Hx]..].
Qed.

Lemma collides_some (kwargs : gmap string pyval) :
  is_Some (kwargs !! "self") ∨ is_Some (kwargs !! "method") →
  collides ["self"; "method"] kwargs = true.
Proof.
  intros [H|H]; unfold collides; simpl.
  - by rewrite bool_decide_eq_true_2.
  - rewrite (bool_decide_eq_true_2 (is_Some (kwargs !! "method"))) by done.
    by rewrite orb_true_r.
Qed.

(** A verb method binds its arguments, then is [_tor_request] on the
    function of that name. *)
Lemma call_verb_unfold (method : Verb) (args : list pyval) (kwargs : gmap string pyval)
    (self : t) (w : World) :
  call_verb http method args kwargs self w =
  if collides ["self"; "method"] kwargs
  then (Raise (OtherError "TypeError"), self, w)
  else if truthy_opt_dict (proxies self)
  then let req := {| method := method; args := args;
                     kwargs := <["proxies" := proxies_val (proxies self)]> kwargs |} in
       (http (length (net_log w)) req, self, log_request w req)
  else (Raise (Exception "Tor proxy not configured. Run check_tor_connection() first."),
        self, w).
Proof.
  destruct method; unfold call_verb, get, post, put, delete, _tor_request, collides;
    simpl;
    destruct (bool_decide (is_Some (kwargs !! "self")));
    destruct (bool_decide (is_Some (kwargs !! "method"))); simpl; try reflexivity;
    unfold mbind, Py_bind, get_self, requests, raise;
    destruct (truthy_opt_dict (proxies self)); reflexivity.
Qed.

(** Verb methods never assign an attribute of the instance. *)
Lemma call_verb_self (method : Verb) (args : list pyval) (kwargs : gmap string pyval)
    (self : t) (w : World) :
  (call_verb http method args kwargs self w).1.2 = self.
Proof.
  rewrite call_verb_unfold.
  destruct (collides _ _); [reflexivity|].
  destruct (truthy_opt_dict _); reflexivity.
Qed.

Lemma run_ops_verbs_self (calls : list (Verb * list pyval * gmap string pyval)) :
  ∀ (self : t) (w : World), (run_ops http (verb_op <$> calls) self w).1 = self.
Proof.
  induction calls as [|[[method args] kwargs] calls IH]; intros self w.
  - reflexivity.
  - simpl. pose proof (call_verb_self method args kwargs self w) as Hself.
    destruct (call_verb _ _ _ _ _ _) as [[r self'] w']. simpl in Hself. subst self'.
    apply IH.
Qed.

End Verification.

Section Sessions.

Variable http : nat → Request → result Response.

(** On an instance without proxy settings verb calls change nothing. *)
Lemma run_ops_verbs_unconfigured (calls : list (Verb * list pyval * gmap string pyval))
    (self : t) (w : World) :
  proxies self = None →
  run_ops http (verb_op <$> calls) self w = (self, w).
Proof.
  intros Hnone. induction calls as [|[[m a] kw] calls IH]; [reflexivity|].
  simpl. rewrite call_verb_unfold, Hnone. destruct (collides _ kw); simpl; exact IH.
Qed.

(** No operation changes the configuration. *)
Lemma run_op_config (op : Op) (self : t) (w : World) :
  tor_ports (run_op http op self w).1 = tor_ports self
  ∧ timeout (run_op http op self w).1 = timeout self
  ∧ ip_check_url (run_op http op self w).1 = ip_check_url self.
Proof.
  destruct op as [|m a kw]; simpl.
  - destruct (check_tor_connection http self w) as [[r self'] w'] eqn:Hcheck.
    simpl. by apply check_tor_connection_config in Hcheck.
  - pose proof (call_verb_self http m a kw self w) as Hself.
    destruct (call_verb _ _ _ _ _ _) as [[r self'] w']. simpl in *. by subst.
Qed.

Lemma run_ops_config (ops : list Op) :
  ∀ (self : t) (w : World),
  tor_ports (run_ops http ops self w).1 = tor_ports self
  ∧ timeout (run_ops http ops self w).1 = timeout self
  ∧ ip_check_url (run_ops http ops self w).1 = ip_check_url self.
Proof.
  induction ops as [|op ops IH]; intros self w; [done|].
  simpl. pose proof (run_op_config op self w) as (Hp & Ht & Hu).
  destruct (run_op http op self w) as [self' w']. simpl in *.
  destruct (IH self' w') as (Hp' & Ht' & Hu').
  rewrite Hp', Ht', Hu'. done.
Qed.

(** The loop only adds lines to standard output. *)
Lemma for_port_in_stdout (direct_ip : option string) (ports : list Z) :
  ∀ (self self' : t) (w w' : World) (r : result (option bool)),
  for_port_in http direct_ip ports self w = (r, self', w') →
  ∃ lines, stdout w' = stdout w ++ lines.
Proof.
  induction ports as [|port rest IH]; intros self self' w w' r.
  - intros [= <- <- <-]. exists []. by rewrite app_nil_r.
  - rewrite for_port_in_cons.
    destruct (verdict _ _ _) as [ip|[line|]|e].
    + intros [= <- <- <-]. by eexists.
    + intros Hrest. apply IH in Hrest as [lines ->].
      exists (line :: lines). simpl. by rewrite <- app_assoc.
    + intros Hrest. apply IH in Hrest as [lines ->]. by exists lines.
    + intros [= <- <- <-]. exists []. by rewrite app_nil_r.
Qed.

(** Whatever the loop does, the requests it sends are the probes of a
    prefix of the ports, in the order of the list. *)
Lemma for_port_in_probes (direct_ip : option string) (ports : list Z) :
  ∀ (self : t) (w : World),
  ∃ k : nat,
    net_log (for_port_in http direct_ip ports self w).2 =
    net_log w ++ map (proxied_request self) (take k ports).
Proof.
  induction ports as [|port rest IH]; intros self w.
  - exists 0%nat. simpl. by rewrite app_nil_r.
  - rewrite for_port_in_cons. cbv zeta.
    destruct (verdict _ _ _) as [ip|line|e].
    + exists 1%nat. unfold take. reflexivity.
    + destruct (IH (set_proxies self (Some (_create_proxies port)))
                  (print_opt (log_request w (proxied_request self port)) line))
        as [k Hk].
      exists (S k). rewrite Hk, net_log_print_opt. simpl.
      by rewrite <- app_assoc.
    + exists 1%nat. unfold take. reflexivity.
Qed.

(** The same for the method: the direct probe first, then the probes of
    a prefix of the ports. *)
Lemma check_tor_connection_probes (self : t) (w : World) :
  ∃ k : nat,
    net_log (check_tor_connection http self w).2 =
    net_log w ++ direct_request self
      :: map (proxied_request self) (take k (tor_ports self)).
Proof.
  rewrite check_tor_connection_unfold, _get_direct_ip_unfold.
  destruct (read_ip _) as [ip|e].
  - cbv zeta.
    destruct (for_port_in_probes (Some ip) (tor_ports self) self
                (if negb (truthy_opt_str (Some ip))
                 then print_line (log_request w (direct_request self))
                        "Warning: Unable to get direct IP. Continuing with Tor check..."
                 else log_request w (direct_request self))) as [k Hk].
    exists k.
    destruct (for_port_in _ _ _ _ _) as [[[[b|]|e] self3] w3]; simpl in *;
      rewrite Hk; destruct (negb _); simpl; by rewrite <- app_assoc.
  - destruct e as [msg| | | |]; try (exists 0%nat; rewrite take_0; reflexivity).
    cbv zeta.
    destruct (for_port_in_probes None (tor_ports self) self
                (print_line
                   (print_line (log_request w (direct_request self))
                      ("Error getting direct IP: " +:+ msg))
                   "Warning: Unable to get direct IP. Continuing with Tor check..."))
      as [k Hk].
    exists k. simpl.
    destruct (for_port_in _ _ _ _ _) as [[[[b|]|e] self3] w3]; simpl in *;
      rewrite Hk; simpl; by rewrite <- app_assoc.
Qed.

End Sessions.

Section Resume.

Variable http : nat → Request → result Response.

(** The check once a prefix of the ports has been given up: what is left
    is the loop on the other ports and the end of the method. *)
Lemma check_tor_connection_resume (self self1 : t) (w w1 : World)
    (direct_ip : option string) (pre rest : list Z) :
  _get_direct_ip http self w = (Return direct_ip, self1, w1) →
  tor_ports self = pre ++ rest →
  (∀ (i : nat) (p : Z), pre !! i = Some p →
     is_skipped (verdict direct_ip p
                   (probe_at http self (length (net_log w) + 1 + i)%nat p)) = true) →
  ∃ w4, net_log w4 = net_log w ++ direct_request self :: map (proxied_request self) pre
    ∧ check_tor_connection http self w =
      match for_port_in http direct_ip rest (after_ports self pre) w4 with
      | (Raise e, self3, w3) => (Raise e, self3, w3)
      | (Return (Some b), self3, w3) => (Return b, self3, w3)
      | (Return None, self3, w3) =>
          (Return false, self3,
           print_line w3 "Tor connection failed. Unable to connect through any configured port.")
      end.
Proof.
  intros Hdirect Hports Hskip.
  rewrite check_tor_connection_unfold, Hdirect.
  apply _get_direct_ip_returns in Hdirect as [-> Hlog1]. cbv zeta.
  set (w2 := if negb (truthy_opt_str direct_ip) then _ else w1).
  assert (Hlog2 : net_log w2 = net_log w ++ [direct_request self]).
  { unfold w2. destruct (negb _); exact Hlog1. }
  assert (Hlen : length (net_log w2) = (length (net_log w) + 1)%nat).
  { rewrite Hlog2, length_app. reflexivity. }
  rewrite Hports.
  destruct (for_port_in_skip http direct_ip pre rest self w2) as (w3 & Hrun & Hlog3).
  { intros i p Hp. rewrite Hlen. by apply Hskip. }
  exists w3. split.
  - rewrite Hlog3, Hlog2, <- app_assoc. reflexivity.
  - rewrite Hrun. reflexivity.
Qed.

(** A turn of the loop always sends the probe of its port. *)
Lemma for_port_in_cons_probes (direct_ip : option string) (port : Z) (rest : list Z)
    (self : t) (w : World) :
  ∃ more, net_log (for_port_in http direct_ip (port :: rest) self w).2 =
          net_log w ++ proxied_request self port :: more.
Proof.
  rewrite for_port_in_cons. cbv zeta.
  destruct (verdict _ _ _) as [ip|line|e].
  - by exists [].
  - destruct (for_port_in_probes http direct_ip rest
                (set_proxies self (Some (_create_proxies port)))
                (print_opt (log_request w (proxied_request self port)) line))
      as [k Hk].
    eexists. rewrite Hk, net_log_print_opt. simpl. rewrite <- app_assoc. reflexivity.
  - by exists [].
Qed.

End Resume.

(** ** Properties of the specification *)

(** C1, as stated, fails.  The direct probe and the probes through both
    default ports show the same address, [check_tor_connection] returns
    [False], and the [proxies] field of the client is not [None]: it holds
    the settings of port 9050, the last port tried. *)
Lemma C1_counterexample :
  let run := check_tor_connection not_anonymizing (__init__ [9150; 9050] 10) empty_world in
  proxies (__init__ [9150; 9050] 10) = None
  ∧ run.1.1 = Return false
  ∧ proxies run.1.2 = Some (_create_proxies 9050)
  ∧ proxies run.1.2 ≠ None.
Proof.
  cbv zeta. split; [reflexivity|]. split; [reflexivity|].
  assert (H : proxies (check_tor_connection not_anonymizing
                         (__init__ [9150; 9050] 10) empty_world).1.2
              = Some (_create_proxies 9050)) by (vm_compute; reflexivity).
  split; [exact H|]. rewrite H. discriminate.
Qed.

(** C1, amended: when [check_tor_connection] returns [False], the
    [proxies] field holds the settings of the last port of the candidate
    list, each port's settings being stored before the port is probed;
    the field is left as it was only when the list is empty. *)
Theorem C1_failed_check_leaves_last_port
    (http : nat → Request → result Response) (self self' : t) (w w' : World) :
  check_tor_connection http self w = (Return false, self', w') →
  proxies self' = match last (tor_ports self) with
                  | Some port => Some (_create_proxies port)
                  | None => proxies self
                  end.
Proof.
  intros Hcheck. apply check_tor_connection_false in Hcheck as ->.
  unfold after_ports. destruct (last (tor_ports self)); reflexivity.
Qed.

Lemma C1_failed_check_leaves_last_port_witness :
  let run := check_tor_connection not_anonymizing (__init__ [9150; 9050] 10) empty_world in
  run = (Return false, run.1.2, run.2)
  ∧ proxies run.1.2 = Some (_create_proxies 9050).
Proof.
  cbv zeta.
  assert (Hrun : check_tor_connection not_anonymizing (__init__ [9150; 9050] 10) empty_world
                 = (Return false,
                    (check_tor_connection not_anonymizing
                       (__init__ [9150; 9050] 10) empty_world).1.2,
                    (check_tor_connection not_anonymizing
                       (__init__ [9150; 9050] 10) empty_world).2))
    by (vm_compute; reflexivity).
  split; [exact Hrun|].
  exact (C1_failed_check_leaves_last_port not_anonymizing _ _ _ _ Hrun).
Defined.

(** C2, as stated, fails.  On a client whose only [check_tor_connection]
    call returned [False], [get] raises nothing: it sends a request and
    returns the response of the HTTP library. *)
Lemma C2_counterexample :
  let run := check_tor_connection not_anonymizing (__init__ [9150; 9050] 10) empty_world in
  let call := get not_anonymizing [PyStr "https://example.com"] ∅ run.1.2 run.2 in
  run.1.1 = Return false
  ∧ call.1.1 = Return (ip_response home_ip)
  ∧ net_log call.2 =
    net_log run.2 ++ [ {| method := GET;
                          args := [PyStr "https://example.com"];
                          kwargs := {[ "proxies" := proxies_val (Some (_create_proxies 9050)) ]} |} ].
Proof.
  cbv zeta. split; [reflexivity|]. split; vm_compute; reflexivity.
Qed.

(** C2, amended: on every client whose [proxies] field is [None] (a
    client on which [check_tor_connection] has not been called, whatever
    verb calls were made on it since its construction), every call of
    get, post, put or delete raises at once, sends no request and changes
    nothing.  The exception is the configuration error, unless the caller
    passes a keyword named 'self' or 'method': these collide with the
    parameters of the methods and the call raises a [TypeError]. *)
Theorem C2_unconfigured_verbs_fail_fast
    (http : nat → Request → result Response)
    (calls : list (Verb * list pyval * gmap string pyval))
    (m : Verb) (a : list pyval) (kw : gmap string pyval) (self : t) (w : World) :
  proxies self = None →
  run_ops http (verb_op <$> calls) self w = (self, w)
  ∧ (∃ e, call_verb http m a kw self w = (Raise e, self, w))
  ∧ (kw !! "self" = None → kw !! "method" = None →
     call_verb http m a kw self w =
     (Raise (Exception "Tor proxy not configured. Run check_tor_connection() first."),
      self, w))
  ∧ (is_Some (kw !! "self") ∨ is_Some (kw !! "method") →
     call_verb http m a kw self w = (Raise (OtherError "TypeError"), self, w)).
Proof.
  intros Hnone. split; [by apply run_ops_verbs_unconfigured|].
  rewrite call_verb_unfold, Hnone. split; [|split].
  - destruct (collides ["self"; "method"] kw); by eexists.
  - intros Hself Hmethod. by rewrite collides_none.
  - intros Hkey. by rewrite collides_some.
Qed.

Lemma C2_unconfigured_verbs_fail_fast_witness :
  proxies (__init__ [9150; 9050] 10) = None
  ∧ run_ops tor_running
      (verb_op <$> [(GET, [PyStr "https://example.com"], ∅);
                    (DELETE, [PyStr "https://example.com/item"], ∅)])
      (__init__ [9150; 9050] 10) empty_world
    = (__init__ [9150; 9050] 10, empty_world)
  ∧ call_verb tor_running POST [PyStr "https://example.com/api"]
      {[ "json" := PyDict {[ "key" := PyStr "value" ]} ]}
      (__init__ [9150; 9050] 10) empty_world
    = (Raise (Exception "Tor proxy not configured. Run check_tor_connection() first."),
       __init__ [9150; 9050] 10, empty_world).
Proof.
  split; [reflexivity|].
  destruct (C2_unconfigured_verbs_fail_fast tor_running
              [(GET, [PyStr "https://example.com"], ∅);
               (DELETE, [PyStr "https://example.com/item"], ∅)]
              POST [PyStr "https://example.com/api"]
              {[ "json" := PyDict {[ "key" := PyStr "value" ]} ]}
              (__init__ [9150; 9050] 10) empty_world eq_refl)
    as (Hops & _ & Hconfig & _).
  split; [exact Hops|]. apply Hconfig; reflexivity.
Defined.

(** C3: [check_tor_connection] probes the ports in the order of the
    list: in every run the requests it sends are the direct probe and then
    the probes of a prefix of the list, in order.  When the ports before
    [port] are all given up (their probe raised a caught error, or
    returned no address or the direct one) and the probe through [port]
    returns an address that is present and differs from the direct one,
    the method stores the settings of [port], returns [True], and has sent
    exactly the direct probe and the probes of the ports up to [port]: the
    ports after it are not probed. *)
Theorem C3_first_working_port_wins
    (http : nat → Request → result Response) (self : t) (w : World) :
  (∃ k : nat,
     net_log (check_tor_connection http self w).2 =
     net_log w ++ direct_request self
       :: map (proxied_request self) (take k (tor_ports self)))
  ∧ (∀ (self1 : t) (w1 : World) (direct_ip : option string)
       (pre rest : list Z) (port : Z) (tor_ip : string),
       _get_direct_ip http self w = (Return direct_ip, self1, w1) →
       tor_ports self = pre ++ port :: rest →
       (∀ (i : nat) (p : Z), pre !! i = Some p →
          is_skipped (verdict direct_ip p
                        (probe_at http self (length (net_log w) + 1 + i)%nat p)) = true) →
       probe_at http self (length (net_log w) + 1 + length pre)%nat port = Return tor_ip →
       tor_ip ≠ "" →
       Some tor_ip ≠ direct_ip →
       ∃ w', check_tor_connection http self w =
             (Return true, set_proxies self (Some (_create_proxies port)), w')
         ∧ net_log w' = net_log w ++ direct_request self
                          :: map (proxied_request self) (pre ++ [port])).
Proof.
  split; [apply check_tor_connection_probes|].
  intros self1 w1 direct_ip pre rest port tor_ip
    Hdirect Hports Hskip Hprobe Hpresent Hdiffers.
  destruct (check_tor_connection_at http self self1 w w1 direct_ip pre rest port
              Hdirect Hports Hskip) as (w' & Hlog & Hrun).
  rewrite Hprobe, verdict_working in Hrun by done.
  eexists. split; [exact Hrun|exact Hlog].
Qed.

Lemma C3_first_working_port_wins_witness :
  let http := scripted [Return (ip_response home_ip);
                        Raise (RequestException "connection refused");
                        Return (ip_response home_ip);
                        Return (ip_response exit_ip)] in
  let self := __init__ [9150; 9050; 9051; 9052] 10 in
  ∃ w', check_tor_connection http self empty_world =
        (Return true, set_proxies self (Some (_create_proxies 9051)), w')
    ∧ net_log w' = [direct_request self; proxied_request self 9150;
                    proxied_request self 9050; proxied_request self 9051].
Proof.
  cbv zeta.
  apply (proj2 (C3_first_working_port_wins _ (__init__ [9150; 9050; 9051; 9052] 10)
                  empty_world)
           (__init__ [9150; 9050; 9051; 9052] 10)
           (log_request empty_world (direct_request (__init__ [9150; 9050; 9051; 9052] 10)))
           (Some home_ip) [9150; 9050] [9052] 9051 exit_ip).
  - reflexivity.
  - reflexivity.
  - intros [|[|i]] p Hp; simpl in Hp; try discriminate Hp;
      injection Hp as <-; reflexivity.
  - reflexivity.
  - discriminate.
  - discriminate.
Defined.

(** C4: a port whose probe shows the direct address is a failed port
    for [check_tor_connection].  When the direct probe returned [ip], the
    ports before [port] were given up and the probe through [port] returns
    the same [ip]: if the method returns [True] it does so for a later
    port, whose settings it stores; if another candidate follows, its
    probe is sent next; and if [port] is the last candidate the method
    returns [False]. *)
Theorem C4_same_ip_port_is_given_up
    (http : nat → Request → result Response) (self self1 : t) (w w1 : World)
    (ip : string) (pre rest : list Z) (port : Z) :
  _get_direct_ip http self w = (Return (Some ip), self1, w1) →
  tor_ports self = pre ++ port :: rest →
  (∀ (i : nat) (p : Z), pre !! i = Some p →
     is_skipped (verdict (Some ip) p
                   (probe_at http self (length (net_log w) + 1 + i)%nat p)) = true) →
  probe_at http self (length (net_log w) + 1 + length pre)%nat port = Return ip →
  (∀ (self' : t) (w' : World),
     check_tor_connection http self w = (Return true, self', w') →
     ∃ pre' port' post',
       rest = pre' ++ port' :: post'
       ∧ self' = set_proxies self (Some (_create_proxies port'))
       ∧ net_log w' = net_log w ++ direct_request self
                        :: map (proxied_request self) (pre ++ port :: pre' ++ [port']))
  ∧ (∀ (next : Z) (rest' : list Z), rest = next :: rest' →
     ∃ more,
       net_log (check_tor_connection http self w).2 =
       net_log w ++ direct_request self
         :: map (proxied_request self) (pre ++ [port; next]) ++ more)
  ∧ (rest = [] →
     ∃ w', check_tor_connection http self w =
           (Return false, set_proxies self (Some (_create_proxies port)), w')
       ∧ net_log w' = net_log w ++ direct_request self
                        :: map (proxied_request self) (pre ++ [port])).
Proof.
  intros Hdirect Hports Hskip Hsame.
  destruct (check_tor_connection_resume http self self1 w w1 (Some ip)
              (pre ++ [port]) rest Hdirect) as (w4 & Hlog4 & Hrun).
  { rewrite Hports, <- app_assoc. reflexivity. }
  { intros i p Hp. apply lookup_app_Some in Hp as [Hp|[Hlen Hp]].
    - by apply Hskip.
    - apply list_lookup_singleton_Some in Hp as [Hi <-].
      replace i with (length pre) by lia.
      rewrite Hsame. unfold verdict.
      rewrite (bool_decide_eq_false_2 (Some ip ≠ Some ip)) by (intros H; by apply H).
      by rewrite andb_false_r. }
  assert (Hafter : after_ports self (pre ++ [port])
                   = set_proxies self (Some (_create_proxies port))).
  { unfold after_ports. by rewrite last_snoc. }
  rewrite Hafter in Hrun. rewrite Hrun. split; [|split].
  - intros self' w'.
    destruct (for_port_in _ _ _ _ _) as [[[[b|]|e] self3] w3] eqn:Hloop;
      try discriminate.
    apply for_port_in_returned in Hloop as (-> & pre' & port' & post' & -> & -> & Hlog).
    intros [= <- <-]. exists pre', port', post'. repeat split.
    rewrite Hlog, Hlog4.
    change (proxied_request (set_proxies self (Some (_create_proxies port))))
      with (proxied_request self).
    repeat (rewrite ?map_app, <- ?app_assoc; simpl). reflexivity.
  - intros next rest' ->.
    destruct (for_port_in_cons_probes http (Some ip) next rest'
                (set_proxies self (Some (_create_proxies port))) w4) as [more Hmore].
    exists more.
    change (proxied_request (set_proxies self (Some (_create_proxies port))))
      with (proxied_request self) in Hmore.
    destruct (for_port_in _ _ _ _ _) as [[[[b|]|e] self3] w3]; simpl in *;
      rewrite Hmore, Hlog4; repeat (rewrite ?map_app, <- ?app_assoc; simpl);
      reflexivity.
  - intros ->. simpl. unfold mret, Py_ret. eexists. split; [reflexivity|].
    exact Hlog4.
Qed.

Lemma C4_same_ip_port_is_given_up_witness :
  let http := scripted [Return (ip_response home_ip); Return (ip_response home_ip);
                        Return (ip_response exit_ip)] in
  let self := __init__ [9150; 9050] 10 in
  (∀ (self' : t) (w' : World),
     check_tor_connection http self empty_world = (Return true, self', w') →
     ∃ pre' port' post',
       [9050] = pre' ++ port' :: post'
       ∧ self' = set_proxies self (Some (_create_proxies port'))
       ∧ net_log w' = net_log empty_world ++ direct_request self
                        :: map (proxied_request self) ([] ++ 9150 :: pre' ++ [port']))
  ∧ (∀ (next : Z) (rest' : list Z), [9050] = next :: rest' →
     ∃ more,
       net_log (check_tor_connection http self empty_world).2 =
       net_log empty_world ++ direct_request self
         :: map (proxied_request self) ([] ++ [9150; next]) ++ more)
  ∧ ([9050] = [] →
     ∃ w', check_tor_connection http self empty_world =
           (Return false, set_proxies self (Some (_create_proxies 9150)), w')
       ∧ net_log w' = net_log empty_world ++ direct_request self
                        :: map (proxied_request self) ([] ++ [9150])).
Proof.
  cbv zeta.
  apply (C4_same_ip_port_is_given_up _ (__init__ [9150; 9050] 10)
           (__init__ [9150; 9050] 10) empty_world
           (log_request empty_world (direct_request (__init__ [9150; 9050] 10)))
           home_ip [] [9050] 9150).
  - reflexivity.
  - reflexivity.
  - intros i p Hp. discriminate Hp.
  - reflexivity.
Defined.

(** C5, as stated, fails.  The direct probe fails because the answer of
    the IP service has no field 'ip', and the probe through port 9150
    would return an address; [check_tor_connection] prints no warning,
    probes no port and does not return [True]: it raises the [KeyError]. *)
Lemma C5_counterexample :
  let http := scripted [Return no_ip_response; Return (ip_response exit_ip)] in
  let self := __init__ [9150; 9050] 10 in
  read_ip (http 0%nat (direct_request self)) = Raise (KeyError "ip")
  ∧ read_ip (http 1%nat (proxied_request self 9150)) = Return exit_ip
  ∧ check_tor_connection http self empty_world =
    (Raise (KeyError "ip"), self,
     {| net_log := [direct_request self]; stdout := [] |}).
Proof.
  cbv zeta. split; [reflexivity|]. split; [reflexivity|]. vm_compute. reflexivity.
Qed.

(** C5, amended: when the direct probe fails with a [requests.RequestException],
    [_get_direct_ip] prints the error and returns [None],
    [check_tor_connection] prints its warning and goes on; if then, the
    ports before it being given up, the probe through some port returns an
    address (any non-empty string), the method returns [True]. *)
Theorem C5_direct_failure_does_not_block
    (http : nat → Request → result Response) (self : t) (w : World) (msg : string)
    (pre rest : list Z) (port : Z) (tor_ip : string) :
  read_ip (http (length (net_log w)) (direct_request self)) = Raise (RequestException msg) →
  tor_ports self = pre ++ port :: rest →
  (∀ (i : nat) (p : Z), pre !! i = Some p →
     is_skipped (verdict None p
                   (probe_at http self (length (net_log w) + 1 + i)%nat p)) = true) →
  probe_at http self (length (net_log w) + 1 + length pre)%nat port = Return tor_ip →
  tor_ip ≠ "" →
  _get_direct_ip http self w =
    (Return None, self,
     print_line (log_request w (direct_request self)) ("Error getting direct IP: " +:+ msg))
  ∧ ∃ w' lines,
      check_tor_connection http self w =
        (Return true, set_proxies self (Some (_create_proxies port)), w')
      ∧ stdout w' = stdout w ++ ("Error getting direct IP: " +:+ msg)
                      :: "Warning: Unable to get direct IP. Continuing with Tor check..."
                      :: lines.
Proof.
  intros Hfail Hports Hskip Hprobe Hpresent.
  assert (Hdirect : _get_direct_ip http self w =
            (Return None, self,
             print_line (log_request w (direct_request self))
                        ("Error getting direct IP: " +:+ msg))).
  { rewrite _get_direct_ip_unfold, Hfail. reflexivity. }
  split; [exact Hdirect|].
  destruct (check_tor_connection_at http self _ w _ None pre rest port
              Hdirect Hports Hskip) as (w' & _ & Hrun).
  rewrite Hprobe, verdict_working in Hrun by done.
  pose proof Hrun as Hout.
  rewrite check_tor_connection_unfold, Hdirect in Hout. simpl in Hout.
  destruct (for_port_in _ _ _ _ _) as [[[[b|]|e] self3] w3] eqn:Hloop;
    try discriminate Hout.
  apply for_port_in_stdout in Hloop as [lines Hlines].
  injection Hout as _ _ Hw. rewrite Hw in Hlines.
  eexists _, lines. split; [exact Hrun|].
  rewrite Hlines. simpl. rewrite <- !app_assoc. reflexivity.
Qed.

Lemma C5_direct_failure_does_not_block_witness :
  let http := scripted [Raise (RequestException "timed out");
                        Raise (SocketError "connection refused");
                        Return (ip_response home_ip)] in
  let self := __init__ [9150; 9050] 10 in
  _get_direct_ip http self empty_world =
    (Return None, self,
     print_line (log_request empty_world (direct_request self))
                "Error getting direct IP: timed out")
  ∧ ∃ w' lines,
      check_tor_connection http self empty_world =
        (Return true, set_proxies self (Some (_create_proxies 9050)), w')
      ∧ stdout w' = "Error getting direct IP: timed out"
                    :: "Warning: Unable to get direct IP. Continuing with Tor check..."
                    :: lines.
Proof.
  cbv zeta.
  apply (C5_direct_failure_does_not_block _ (__init__ [9150; 9050] 10) empty_world
           "timed out" [9150] [] 9050 home_ip).
  - reflexivity.
  - reflexivity.
  - intros [|i] p Hp; simpl in Hp; try discriminate Hp.
    injection Hp as <-. reflexivity.
  - reflexivity.
  - discriminate.
Defined.

(** C6: for every port the settings made by [_create_proxies] map 'http'
    and 'https', and nothing else, to 'socks5h://127.0.0.1:' followed by
    the port in decimal; for port 9150 this is
    'socks5h://127.0.0.1:9150'; and once [check_tor_connection] has
    returned [True] on a probe through port 9150, every request a later
    verb call sends, after any number of verb calls, has exactly these
    settings as its 'proxies' option; the call sends such a request
    whenever its keywords bind (none is named 'self' or 'method'). *)
Theorem C6_socks5h_settings_of_port :
  (∀ port : Z,
     _create_proxies port !! "http" = Some ("socks5h://127.0.0.1:" +:+ pretty port)
     ∧ _create_proxies port !! "https" = Some ("socks5h://127.0.0.1:" +:+ pretty port)
     ∧ dom (_create_proxies port) = {[ "http"; "https" ]})
  ∧ _create_proxies 9150 = {[ "http" := "socks5h://127.0.0.1:9150";
                              "https" := "socks5h://127.0.0.1:9150" ]}
  ∧ (∀ (http : nat → Request → result Response) (self0 self : t) (w0 w : World),
       check_tor_connection http self0 w0 = (Return true, self, w) →
       last (net_log w) = Some (proxied_request self0 9150) →
       ∀ (calls : list (Verb * list pyval * gmap string pyval))
         (m : Verb) (a : list pyval) (kw : gmap string pyval),
       let '(self1, w1) := run_ops http (verb_op <$> calls) self w in
       Forall (λ req, kwargs req !! "proxies" =
                      Some (PyDict {[ "http" := PyStr "socks5h://127.0.0.1:9150";
                                      "https" := PyStr "socks5h://127.0.0.1:9150" ]}))
         (drop (length (net_log w1)) (net_log (call_verb http m a kw self1 w1).2))
       ∧ (kw !! "self" = None → kw !! "method" = None →
          ∃ req, call_verb http m a kw self1 w1 =
                 (http (length (net_log w1)) req, self1, log_request w1 req)
            ∧ kwargs req !! "proxies" =
              Some (PyDict {[ "http" := PyStr "socks5h://127.0.0.1:9150";
                              "https" := PyStr "socks5h://127.0.0.1:9150" ]}))).
Proof.
  split; [|split].
  - intros port. unfold _create_proxies. split; [|split].
    + apply lookup_insert_eq.
    + rewrite lookup_insert_ne by done. apply lookup_singleton_eq.
    + rewrite dom_insert_L, dom_singleton_L. set_solver.
  - reflexivity.
  - intros http self0 self w0 w Hcheck Hlast calls m a kw.
    apply check_tor_connection_true in Hcheck as (port & _ & -> & Hlast').
    assert (Hreq : proxied_request self0 9150 = proxied_request self0 port)
      by congruence.
    assert (Hval : proxies_val (Some (_create_proxies port))
                   = proxies_val (Some (_create_proxies 9150))).
    { assert (H : kwargs (proxied_request self0 9150) !! "proxies"
                  = kwargs (proxied_request self0 port) !! "proxies")
        by (by rewrite Hreq).
      unfold proxied_request in H. simpl in H.
      rewrite !lookup_insert_eq in H. unfold proxies_val. congruence. }
    pose proof (run_ops_verbs_self http calls
                  (set_proxies self0 (Some (_create_proxies port))) w) as Hself.
    destruct (run_ops _ _ _ _) as [self1 w1]. simpl in Hself. subst self1.
    assert (Hsent : kwargs {| method := m; args := a;
                              kwargs := <["proxies" :=
                                            proxies_val (Some (_create_proxies port))]> kw |}
                      !! "proxies"
                    = Some (PyDict {[ "http" := PyStr "socks5h://127.0.0.1:9150";
                                      "https" := PyStr "socks5h://127.0.0.1:9150" ]})).
    { cbn [kwargs]. rewrite lookup_insert_eq, Hval. reflexivity. }
    assert (Htruthy : truthy_opt_dict (Some (_create_proxies port)) = true).
    { simpl. apply bool_decide_eq_true_2. unfold _create_proxies. apply insert_non_empty. }
    rewrite call_verb_unfold.
    change (proxies (set_proxies self0 (Some (_create_proxies port))))
      with (Some (_create_proxies port)).
    rewrite Htruthy. split.
    + destruct (collides ["self"; "method"] kw); cbn [snd].
      * rewrite drop_all. constructor.
      * cbv zeta. cbn [snd log_request net_log]. rewrite drop_app_length.
        constructor; [exact Hsent|constructor].
    + intros Hself Hmethod. rewrite collides_none by done.
      eexists. split; [reflexivity|exact Hsent].
Qed.

Lemma C6_socks5h_settings_of_port_witness :
  let self0 := __init__ [9150; 9050] 10 in
  let run := check_tor_connection tor_running self0 empty_world in
  run = (Return true, run.1.2, run.2)
  ∧ last (net_log run.2) = Some (proxied_request self0 9150)
  ∧ ∃ req, call_verb tor_running GET [PyStr "https://example.com"] ∅ run.1.2 run.2 =
           (tor_running (length (net_log run.2)) req, run.1.2, log_request run.2 req)
      ∧ kwargs req !! "proxies" =
        Some (PyDict {[ "http" := PyStr "socks5h://127.0.0.1:9150";
                        "https" := PyStr "socks5h://127.0.0.1:9150" ]}).
Proof.
  cbv zeta.
  assert (Hrun : check_tor_connection tor_running (__init__ [9150; 9050] 10) empty_world
                 = (Return true,
                    (check_tor_connection tor_running
                       (__init__ [9150; 9050] 10) empty_world).1.2,
                    (check_tor_connection tor_running
                       (__init__ [9150; 9050] 10) empty_world).2))
    by (vm_compute; reflexivity).
  assert (Hlast : last (net_log (check_tor_connection tor_running
                                   (__init__ [9150; 9050] 10) empty_world).2)
                  = Some (proxied_request (__init__ [9150; 9050] 10) 9150))
    by (vm_compute; reflexivity).
  split; [exact Hrun|]. split; [exact Hlast|].
  exact (proj2 (proj2 (proj2 C6_socks5h_settings_of_port) tor_running _ _ _ _ Hrun Hlast
                  [] GET [PyStr "https://example.com"] ∅)
           (lookup_empty _) (lookup_empty _)).
Defined.

(** C7: on a client with active proxy settings a verb call whose keywords
    bind (none is named 'self' or 'method', the parameters of the methods
    themselves) sends one request, with the function of [requests] of that
    verb, the caller's positional arguments, and the caller's keyword
    arguments in which only 'proxies' is set, to the active settings;
    every other option is passed as the caller gave it; the method returns
    what [requests] returns and leaves the client as it is. *)
Theorem C7_verbs_pass_options_through
    (http : nat → Request → result Response)
    (m : Verb) (a : list pyval) (kw : gmap string pyval) (self : t) (w : World)
    (settings : gmap string string) :
  proxies self = Some settings →
  settings ≠ ∅ →
  kw !! "self" = None →
  kw !! "method" = None →
  ∃ req,
    call_verb http m a kw self w =
      (http (length (net_log w)) req, self, log_request w req)
    ∧ method req = m
    ∧ args req = a
    ∧ kwargs req !! "proxies" = Some (PyDict (PyStr <$> settings))
    ∧ ∀ key : string, key ≠ "proxies" → kwargs req !! key = kw !! key.
Proof.
  intros Hsettings Hnonempty Hself Hmethod.
  rewrite call_verb_unfold, Hsettings, collides_none by done. simpl.
  rewrite bool_decide_eq_true_2 by done.
  eexists. split; [reflexivity|]. simpl. repeat split.
  - apply lookup_insert_eq.
  - intros key Hkey. by rewrite lookup_insert_ne.
Qed.

Lemma C7_verbs_pass_options_through_witness :
  let self := set_proxies (__init__ [9150; 9050] 10) (Some (_create_proxies 9150)) in
  let kw : gmap string pyval :=
    {[ "json" := PyDict {[ "key" := PyStr "value" ]};
       "headers" := PyDict {[ "Accept" := PyStr "application/json" ]} ]} in
  ∃ req,
    call_verb tor_running POST [PyStr "https://example.com/api"] kw self empty_world =
      (tor_running 0 req, self, log_request empty_world req)
    ∧ method req = POST
    ∧ args req = [PyStr "https://example.com/api"]
    ∧ kwargs req !! "proxies" = Some (PyDict (PyStr <$> _create_proxies 9150))
    ∧ ∀ key : string, key ≠ "proxies" → kwargs req !! key = kw !! key.
Proof.
  cbv zeta.
  apply (C7_verbs_pass_options_through tor_running POST
           [PyStr "https://example.com/api"] _
           (set_proxies (__init__ [9150; 9050] 10) (Some (_create_proxies 9150)))
           empty_world (_create_proxies 9150)).
  - reflexivity.
  - unfold _create_proxies. apply insert_non_empty.
  - reflexivity.
  - reflexivity.
Defined.

(** A keyword named 'method' or 'self' never reaches [requests]: on a
    configured client the call raises the [TypeError] and sends nothing. *)
Example get_with_method_keyword :
  let self := set_proxies (__init__ [9150; 9050] 10) (Some (_create_proxies 9150)) in
  get tor_running [PyStr "https://example.com"] {[ "method" := PyStr "HEAD" ]}
    self empty_world
  = (Raise (OtherError "TypeError"), self, empty_world)
  ∧ get tor_running [PyStr "https://example.com"] {[ "self" := PyNone ]}
      self empty_world
    = (Raise (OtherError "TypeError"), self, empty_world).
Proof. cbv zeta. split; vm_compute; reflexivity. Qed.

(** C8: the wrapper made by [tor_request] builds a fresh client with the
    default ports and timeout and runs [check_tor_connection] on it.  If
    the check returns [True], the wrapper is the call of the wrapped
    function on the checked client followed by the caller's arguments, in
    the world the check left, and its result is that call's result.  If
    the check returns [False], the wrapper raises its connection error in
    the world the check left, whatever the wrapped function is: the
    function is not called.  (If the check itself raises, so does the
    wrapper.) *)
Theorem C8_tor_request_wrapper
    (http : nat → Request → result Response) (R : Type)
    (func : TorRequestsWrapper.t → list pyval → gmap string pyval → World → result R * World)
    (a : list pyval) (kw : gmap string pyval) (w : World) :
  let fresh := {| tor_ports := [9150; 9050];
                  timeout := 10;
                  ip_check_url := "https://api.ipify.org?format=json";
                  proxies := None |} in
  match check_tor_connection http fresh w with
  | (Return true, tor, w') =>
      tor_request http func a kw w = func tor a kw w'
  | (Return false, _, w') =>
      ∀ other : TorRequestsWrapper.t → list pyval → gmap string pyval → World
                → result R * World,
        tor_request http other a kw w =
        (Raise (Exception
           "Tor connection failed. Make sure Tor is running and configured correctly."),
         w')
  | (Raise e, _, w') =>
      tor_request http func a kw w = (Raise e, w')
  end.
Proof.
  cbv zeta. unfold tor_request, __init__, default_tor_ports, default_timeout.
  destruct (check_tor_connection http _ w) as [[[[|]|e] tor] w']; reflexivity.
Qed.

(** The wrapper on the argument 42: with Tor running the wrapped function
    receives the checked client and 42; with a proxy that does not
    anonymize the wrapper raises. *)
Example tor_request_wrapper_42 :
  let func := λ (tor : TorRequestsWrapper.t) (a : list pyval) (kw : gmap string pyval)
                (w : World), (Return (proxies tor, a), w) in
  (tor_request tor_running func [PyInt 42] ∅ empty_world).1
    = Return (Some (_create_proxies 9150), [PyInt 42])
  ∧ (tor_request not_anonymizing func [PyInt 42] ∅ empty_world).1
    = Raise (Exception
        "Tor connection failed. Make sure Tor is running and configured correctly.").
Proof. cbv zeta. split; vm_compute; reflexivity. Qed.

(** C9: over every sequence of operations on a client the candidate
    ports, the timeout and the URL of the IP-check service stay what they
    were; a verb call leaves every field of the client as it is, so that
    over a sequence of verb calls the [proxies] field stays what it was:
    only [check_tor_connection] assigns it. *)
Theorem C9_configuration_is_never_modified
    (http : nat → Request → result Response) (ops : list Op)
    (calls : list (Verb * list pyval * gmap string pyval))
    (m : Verb) (a : list pyval) (kw : gmap string pyval) (self : t) (w : World) :
  (tor_ports (run_ops http ops self w).1 = tor_ports self
   ∧ timeout (run_ops http ops self w).1 = timeout self
   ∧ ip_check_url (run_ops http ops self w).1 = ip_check_url self)
  ∧ (run_op http (VerbCall m a kw) self w).1 = self
  ∧ (run_ops http (verb_op <$> calls) self w).1 = self.
Proof.
  split; [apply run_ops_config|]. split.
  - simpl. pose proof (call_verb_self http m a kw self w) as Hself.
    destruct (call_verb _ _ _ _ _ _) as [[r self'] w']. exact Hself.
  - apply run_ops_verbs_self.
Qed.

(** C10: in the loop of [check_tor_connection] a
    [requests.RequestException] or a [socket.error] raised by the probe of
    a port is caught and the loop goes on with the next port; any other
    exception leaves the loop.  In particular, when the answer through a
    port parses and has no field 'ip', the ports before it being given up,
    [check_tor_connection] raises the [KeyError] of the lookup and the
    ports after it are not probed. *)
Theorem C10_missing_ip_field_is_not_caught
    (http : nat → Request → result Response) :
  (∀ (direct_ip : option string) (port : Z) (rest : list Z) (self : t) (w : World)
     (e : exn),
     probe_at http self (length (net_log w)) port = Raise e →
     let self1 := set_proxies self (Some (_create_proxies port)) in
     let w1 := log_request w (proxied_request self port) in
     for_port_in http direct_ip (port :: rest) self w =
     match e with
     | RequestException msg =>
         for_port_in http direct_ip rest self1
           (print_line w1 ("Error checking Tor connection on port "
                           +:+ pretty port +:+ ": " +:+ msg))
     | SocketError msg =>
         for_port_in http direct_ip rest self1
           (print_line w1 ("Socket error on port " +:+ pretty port +:+ ": " +:+ msg))
     | _ => (Raise e, self1, w1)
     end)
  ∧ (∀ (self self1 : t) (w w1 : World) (direct_ip : option string)
       (pre rest : list Z) (port : Z) (response : Response) (body : gmap string string),
       _get_direct_ip http self w = (Return direct_ip, self1, w1) →
       tor_ports self = pre ++ port :: rest →
       (∀ (i : nat) (p : Z), pre !! i = Some p →
          is_skipped (verdict direct_ip p
                        (probe_at http self (length (net_log w) + 1 + i)%nat p)) = true) →
       http (length (net_log w) + 1 + length pre)%nat (proxied_request self port)
         = Return response →
       json response = Return body →
       body !! "ip" = None →
       ∃ w', check_tor_connection http self w =
             (Raise (KeyError "ip"), set_proxies self (Some (_create_proxies port)), w')
         ∧ net_log w' = net_log w ++ direct_request self
                          :: map (proxied_request self) (pre ++ [port])).
Proof.
  split.
  - intros direct_ip port rest self w e Hprobe. cbv zeta.
    rewrite for_port_in_cons, Hprobe. destruct e; reflexivity.
  - intros self self1 w w1 direct_ip pre rest port response body
      Hdirect Hports Hskip Hanswer Hjson Hmissing.
    destruct (check_tor_connection_at http self self1 w w1 direct_ip pre rest port
                Hdirect Hports Hskip) as (w' & Hlog & Hrun).
    unfold probe_at, read_ip in Hrun. rewrite Hanswer, Hjson, Hmissing in Hrun.
    exists w'. split; [exact Hrun|exact Hlog].
Qed.

Lemma C10_missing_ip_field_is_not_caught_witness :
  let http := scripted [Return (ip_response home_ip); Return no_ip_response;
                        Return (ip_response exit_ip)] in
  let self := __init__ [9150; 9050] 10 in
  (for_port_in (scripted [Raise (SocketError "connection refused")]) None [9150; 9050]
     self empty_world
   = for_port_in (scripted [Raise (SocketError "connection refused")]) None [9050]
       (set_proxies self (Some (_create_proxies 9150)))
       (print_line (log_request empty_world (proxied_request self 9150))
                   "Socket error on port 9150: connection refused"))
  ∧ ∃ w', check_tor_connection http self empty_world =
          (Raise (KeyError "ip"), set_proxies self (Some (_create_proxies 9150)), w')
      ∧ net_log w' = [direct_request self; proxied_request self 9150].
Proof.
  cbv zeta. split.
  - apply (proj1 (C10_missing_ip_field_is_not_caught
                    (scripted [Raise (SocketError "connection refused")]))
             None 9150 [9050] (__init__ [9150; 9050] 10) empty_world
             (SocketError "connection refused")).
    reflexivity.
  - apply (proj2 (C10_missing_ip_field_is_not_caught
                    (scripted [Return (ip_response home_ip); Return no_ip_response;
                               Return (ip_response exit_ip)]))
             (__init__ [9150; 9050] 10) (__init__ [9150; 9050] 10) empty_world
             (log_request empty_world (direct_request (__init__ [9150; 9050] 10)))
             (Some home_ip) [] [9050] 9150 no_ip_response {[ "error" := "rate limited" ]}).
    + reflexivity.
    + reflexivity.
    + intros i p Hp. discriminate Hp.
    + reflexivity.
    + reflexivity.
    + reflexivity.
Defined.

(** ** Further properties of the connection check *)

Section Outcomes.

Variable http : nat → Request → result Response.

Lemma truthy_str_nonempty (s : string) : truthy_str s = true → s ≠ "".
Proof.
  unfold truthy_str. intros Hs. apply negb_true_iff in Hs. by apply String.eqb_neq.
Qed.

Lemma verdict_working_inv (direct_ip : option string) (port : Z)
    (probed : result string) (tor_ip : string) :
  verdict direct_ip port probed = Working tor_ip →
  probed = Return tor_ip ∧ tor_ip ≠ "" ∧ Some tor_ip ≠ direct_ip.
Proof.
  destruct probed as [ip|e]; simpl.
  - destruct (truthy_str ip) eqn:Htruthy; simpl; [|discriminate].
    case_bool_decide as Hdiffers; [|discriminate].
    intros [= <-]. split; [reflexivity|]. split; [|exact Hdiffers].
    by apply truthy_str_nonempty.
  - destruct e; discriminate.
Qed.

(** What the loop has seen when it returns. *)
Lemma for_port_in_returned_probe (direct_ip : option string) (ports : list Z) :
  ∀ (self self' : t) (w w' : World) (b : bool),
  for_port_in http direct_ip ports self w = (Return (Some b), self', w') →
  ∃ pre port post tor_ip,
    ports = pre ++ port :: post
    ∧ (∀ (i : nat) (p : Z), pre !! i = Some p →
         is_skipped (verdict direct_ip p
                       (probe_at http self (length (net_log w) + i)%nat p)) = true)
    ∧ verdict direct_ip port
        (probe_at http self (length (net_log w) + length pre)%nat port) = Working tor_ip
    ∧ self' = set_proxies self (Some (_create_proxies port))
    ∧ last (stdout w') = Some ("Connected to Tor! Tor IP: " +:+ tor_ip).
Proof.
  induction ports as [|port rest IH]; intros self self' w w' b.
  - discriminate.
  - rewrite for_port_in_cons.
    destruct (verdict _ _ _) as [ip|line|e] eqn:Hverdict; try discriminate.
    + intros [= <- <- <-]. exists [], port, rest, ip. split; [reflexivity|].
      split; [intros i p Hp; discriminate Hp|].
      split; [simpl; by rewrite Nat.add_0_r|].
      split; [reflexivity|]. simpl. by rewrite last_snoc.
    + intros Hrest.
      apply IH in Hrest as (pre & p & post & ip & -> & Hskip & Hwork & -> & Hout).
      rewrite net_log_print_opt in Hskip, Hwork. simpl in Hskip, Hwork.
      rewrite length_app in Hskip, Hwork. simpl in Hskip, Hwork.
      exists (port :: pre), p, post, ip. split; [reflexivity|]. split; [|split].
      * intros [|i] q Hq; simpl in Hq.
        -- injection Hq as <-. rewrite Nat.add_0_r, Hverdict. reflexivity.
        -- specialize (Hskip i q Hq).
           replace (length (net_log w) + S i)%nat
             with (length (net_log w) + 1 + i)%nat by lia.
           exact Hskip.
      * simpl.
        replace (length (net_log w) + S (length pre))%nat
          with (length (net_log w) + 1 + length pre)%nat by lia.
        exact Hwork.
      * split; [reflexivity|exact Hout].
Qed.

(** The loop runs to its end exactly when every port is given up. *)
Lemma for_port_in_exhausted_iff (direct_ip : option string) (ports : list Z) :
  ∀ (self : t) (w : World),
  (∀ (i : nat) (p : Z), ports !! i = Some p →
     is_skipped (verdict direct_ip p
                   (probe_at http self (length (net_log w) + i)%nat p)) = true)
  ↔ (for_port_in http direct_ip ports self w).1.1 = Return None.
Proof.
  induction ports as [|port rest IH]; intros self w.
  - split; [reflexivity|]. intros _ i p Hp. discriminate Hp.
  - rewrite for_port_in_cons. cbv zeta.
    destruct (verdict _ _ _) as [ip|line|e] eqn:Hverdict.
    + split; [|discriminate]. intros Hskip.
      specialize (Hskip 0%nat port eq_refl).
      rewrite Nat.add_0_r, Hverdict in Hskip. discriminate Hskip.
    + rewrite <- IH. rewrite net_log_print_opt. simpl. rewrite length_app. simpl.
      split.
      * intros Hskip i p Hp.
        replace (length (net_log w) + 1 + i)%nat
          with (length (net_log w) + S i)%nat by lia.
        exact (Hskip (S i) p Hp).
      * intros Hskip [|i] p Hp; simpl in Hp.
        -- injection Hp as <-. rewrite Nat.add_0_r, Hverdict. reflexivity.
        -- replace (length (net_log w) + S i)%nat
             with (length (net_log w) + 1 + i)%nat by lia.
           exact (Hskip i p Hp).
    + split; [|discriminate]. intros Hskip.
      specialize (Hskip 0%nat port eq_refl).
      rewrite Nat.add_0_r, Hverdict in Hskip. discriminate Hskip.
Qed.

(** The world in which the loop starts. *)
Lemma loop_world_log (direct_ip : option string) (w1 : World) :
  net_log (if negb (truthy_opt_str direct_ip)
           then print_line w1 "Warning: Unable to get direct IP. Continuing with Tor check..."
           else w1) = net_log w1.
Proof. destruct (negb _); reflexivity. Qed.

End Outcomes.

(** X1: [check_tor_connection] returns [True] only on evidence.  When it
    returns [True], the direct probe returned (an address or [None]), some
    port of the list was reached with every port before it given up, the
    probe through that port returned a non-empty address different from the
    direct one, the settings stored are those of that port, and the last
    line printed names that address. *)
Theorem check_true_is_sound
    (http : nat → Request → result Response) (self self' : t) (w w' : World) :
  check_tor_connection http self w = (Return true, self', w') →
  ∃ direct_ip pre port post tor_ip,
    (_get_direct_ip http self w).1.1 = Return direct_ip
    ∧ tor_ports self = pre ++ port :: post
    ∧ (∀ (i : nat) (p : Z), pre !! i = Some p →
         is_skipped (verdict direct_ip p
                       (probe_at http self (length (net_log w) + 1 + i)%nat p)) = true)
    ∧ probe_at http self (length (net_log w) + 1 + length pre)%nat port = Return tor_ip
    ∧ tor_ip ≠ ""
    ∧ Some tor_ip ≠ direct_ip
    ∧ self' = set_proxies self (Some (_create_proxies port))
    ∧ last (stdout w') = Some ("Connected to Tor! Tor IP: " +:+ tor_ip).
Proof.
  rewrite check_tor_connection_unfold.
  destruct (_get_direct_ip http self w) as [[[direct_ip|e] self1] w1] eqn:Hdirect;
    [|discriminate].
  apply _get_direct_ip_returns in Hdirect as [-> Hlog1]. cbv zeta.
  destruct (for_port_in _ _ _ _ _) as [[[[b|]|e] self3] w3] eqn:Hloop;
    try discriminate.
  intros [= -> <- <-].
  apply for_port_in_returned_probe in Hloop
    as (pre & port & post & tor_ip & Hports & Hskip & Hwork & -> & Hout).
  rewrite loop_world_log, Hlog1, length_app in Hskip, Hwork. simpl in Hskip, Hwork.
  apply verdict_working_inv in Hwork as (Hprobe & Hpresent & Hdiffers).
  exists direct_ip, pre, port, post, tor_ip. repeat split; try done.
Qed.

Lemma check_true_is_sound_witness :
  let self := __init__ [9150; 9050] 10 in
  let run := check_tor_connection tor_running self empty_world in
  run = (Return true, run.1.2, run.2)
  ∧ ∃ direct_ip pre port post tor_ip,
      (_get_direct_ip tor_running self empty_world).1.1 = Return direct_ip
      ∧ tor_ports self = pre ++ port :: post
      ∧ (∀ (i : nat) (p : Z), pre !! i = Some p →
           is_skipped (verdict direct_ip p
                         (probe_at tor_running self
                            (length (net_log empty_world) + 1 + i)%nat p)) = true)
      ∧ probe_at tor_running self
          (length (net_log empty_world) + 1 + length pre)%nat port = Return tor_ip
      ∧ tor_ip ≠ ""
      ∧ Some tor_ip ≠ direct_ip
      ∧ run.1.2 = set_proxies self (Some (_create_proxies port))
      ∧ last (stdout run.2) = Some ("Connected to Tor! Tor IP: " +:+ tor_ip).
Proof.
  cbv zeta.
  assert (Hrun : check_tor_connection tor_running (__init__ [9150; 9050] 10) empty_world
                 = (Return true,
                    (check_tor_connection tor_running
                       (__init__ [9150; 9050] 10) empty_world).1.2,
                    (check_tor_connection tor_running
                       (__init__ [9150; 9050] 10) empty_world).2))
    by (vm_compute; reflexivity).
  split; [exact Hrun|].
  exact (check_true_is_sound tor_running _ _ _ _ Hrun).
Defined.

(** When the check returns [False], and what it has done by then. *)
Lemma check_tor_connection_false_iff
    (http : nat → Request → result Response) (self self1 : t) (w w1 : World)
    (direct_ip : option string) :
  _get_direct_ip http self w = (Return direct_ip, self1, w1) →
  ((∀ (i : nat) (p : Z), tor_ports self !! i = Some p →
      is_skipped (verdict direct_ip p
                    (probe_at http self (length (net_log w) + 1 + i)%nat p)) = true)
   ↔ (check_tor_connection http self w).1.1 = Return false)
  ∧ ((check_tor_connection http self w).1.1 = Return false →
       net_log (check_tor_connection http self w).2 =
         net_log w ++ direct_request self :: map (proxied_request self) (tor_ports self)
       ∧ last (stdout (check_tor_connection http self w).2) =
         Some "Tor connection failed. Unable to connect through any configured port.").
Proof.
  intros Hdirect.
  rewrite check_tor_connection_unfold, Hdirect.
  apply _get_direct_ip_returns in Hdirect as [-> Hlog1]. cbv zeta.
  set (w2 := if negb (truthy_opt_str direct_ip) then _ else w1).
  assert (Hlog2 : net_log w2 = net_log w ++ [direct_request self]).
  { unfold w2. rewrite loop_world_log. exact Hlog1. }
  pose proof (for_port_in_exhausted_iff http direct_ip (tor_ports self) self w2) as Hiff.
  rewrite Hlog2, length_app in Hiff. simpl in Hiff.
  destruct (for_port_in _ _ _ _ _) as [[[[b|]|e] self3] w3] eqn:Hloop; simpl in *.
  - apply for_port_in_returned in Hloop as [-> _].
    split; [|discriminate]. rewrite Hiff. split; discriminate.
  - apply for_port_in_exhausted in Hloop as [-> ->].
    split; [rewrite Hiff; done|]. intros _. split.
    + rewrite Hlog2, <- app_assoc. reflexivity.
    + by rewrite last_snoc.
  - split; [|discriminate]. rewrite Hiff. split; discriminate.
Qed.

(** X2: once the direct probe has returned, [check_tor_connection]
    returns [False] exactly when every port of the list is given up (its
    probe raised a caught error, or returned no address or the direct
    one); it has then probed every port, once and in order, and the last
    line printed is the failure line. *)
Theorem check_false_iff_all_given_up
    (http : nat → Request → result Response) (self self1 : t) (w w1 : World)
    (direct_ip : option string) :
  _get_direct_ip http self w = (Return direct_ip, self1, w1) →
  ((∀ (i : nat) (p : Z), tor_ports self !! i = Some p →
      is_skipped (verdict direct_ip p
                    (probe_at http self (length (net_log w) + 1 + i)%nat p)) = true)
   ↔ (check_tor_connection http self w).1.1 = Return false)
  ∧ ((check_tor_connection http self w).1.1 = Return false →
       net_log (check_tor_connection http self w).2 =
         net_log w ++ direct_request self :: map (proxied_request self) (tor_ports self)
       ∧ last (stdout (check_tor_connection http self w).2) =
         Some "Tor connection failed. Unable to connect through any configured port.").
Proof.
  exact (check_tor_connection_false_iff http self self1 w w1 direct_ip).
Qed.

Lemma check_false_iff_all_given_up_witness :
  let http := scripted [Return (ip_response home_ip);
                        Raise (SocketError "connection refused");
                        Return (ip_response home_ip)] in
  let self := __init__ [9150; 9050] 10 in
  ((∀ (i : nat) (p : Z), tor_ports self !! i = Some p →
      is_skipped (verdict (Some home_ip) p
                    (probe_at http self (length (net_log empty_world) + 1 + i)%nat p)) = true)
   ↔ (check_tor_connection http self empty_world).1.1 = Return false)
  ∧ ((check_tor_connection http self empty_world).1.1 = Return false →
       net_log (check_tor_connection http self empty_world).2 =
         net_log empty_world ++ direct_request self
           :: map (proxied_request self) (tor_ports self)
       ∧ last (stdout (check_tor_connection http self empty_world).2) =
         Some "Tor connection failed. Unable to connect through any configured port.").
Proof.
  cbv zeta.
  apply (check_false_iff_all_given_up _ (__init__ [9150; 9050] 10)
           (__init__ [9150; 9050] 10) empty_world
           (log_request empty_world (direct_request (__init__ [9150; 9050] 10)))
           (Some home_ip)).
  reflexivity.
Defined.

(** X3: a proxy that does not anonymize is never accepted.  If every
    answer of the network shows one and the same address, the check
    returns [False] whatever the list of ports, after probing all of
    them. *)
Theorem same_ip_everywhere_is_rejected
    (http : nat → Request → result Response) (self : t) (w : World) (ip : string) :
  (∀ (n : nat) (req : Request), read_ip (http n req) = Return ip) →
  (check_tor_connection http self w).1.1 = Return false
  ∧ net_log (check_tor_connection http self w).2 =
    net_log w ++ direct_request self :: map (proxied_request self) (tor_ports self).
Proof.
  intros Hsame.
  assert (Hdirect : _get_direct_ip http self w =
            (Return (Some ip), self, log_request w (direct_request self))).
  { rewrite _get_direct_ip_unfold, Hsame. reflexivity. }
  destruct (check_tor_connection_false_iff http self _ w _ _ Hdirect) as [Hiff Hlog].
  assert (Hfalse : (check_tor_connection http self w).1.1 = Return false).
  { apply Hiff. intros i p _. unfold probe_at. rewrite Hsame. unfold verdict.
    rewrite (bool_decide_eq_false_2 (Some ip ≠ Some ip)) by (intros H; by apply H).
    by rewrite andb_false_r. }
  split; [exact Hfalse|]. by apply Hlog.
Qed.

Lemma same_ip_everywhere_is_rejected_witness :
  let self := __init__ [9150; 9050; 9051] 10 in
  (check_tor_connection not_anonymizing self empty_world).1.1 = Return false
  ∧ net_log (check_tor_connection not_anonymizing self empty_world).2 =
    [direct_request self; proxied_request self 9150; proxied_request self 9050;
     proxied_request self 9051].
Proof.
  cbv zeta.
  apply (same_ip_everywhere_is_rejected not_anonymizing
           (__init__ [9150; 9050; 9051] 10) empty_world home_ip).
  intros n req. reflexivity.
Defined.

Section Diagnostics.

Variable http : nat → Request → result Response.

(** The loop when every probe raises the same [RequestException]. *)
Lemma for_port_in_all_refused (msg : string) (direct_ip : option string) (ports : list Z) :
  (∀ (n : nat) (req : Request), http n req = Raise (RequestException msg)) →
  ∀ (self : t) (w : World),
  for_port_in http direct_ip ports self w =
  (Return None, after_ports self ports,
   {| net_log := net_log w ++ map (proxied_request self) ports;
      stdout := stdout w ++ map (port_error_line msg) ports |}).
Proof.
  intros Hdown. induction ports as [|port rest IH]; intros self w.
  - simpl. unfold mret, Py_ret, after_ports. simpl. rewrite !app_nil_r.
    by destruct w.
  - rewrite for_port_in_cons. cbv zeta. unfold probe_at. rewrite Hdown. simpl.
    rewrite IH, after_ports_cons. simpl. by rewrite <- !app_assoc.
Qed.

End Diagnostics.

(** The check when every request raises the same [RequestException]. *)
Lemma check_tor_connection_all_refused
    (http : nat → Request → result Response) (self : t) (w : World) (msg : string) :
  (∀ (n : nat) (req : Request), http n req = Raise (RequestException msg)) →
  check_tor_connection http self w =
  (Return false, after_ports self (tor_ports self),
   {| net_log := net_log w ++ direct_request self
                   :: map (proxied_request self) (tor_ports self);
      stdout := stdout w
                ++ ("Error getting direct IP: " +:+ msg)
                   :: "Warning: Unable to get direct IP. Continuing with Tor check..."
                   :: map (port_error_line msg) (tor_ports self)
                ++ ["Tor connection failed. Unable to connect through any configured port."]
   |}).
Proof.
  intros Hdown.
  rewrite check_tor_connection_unfold, _get_direct_ip_unfold.
  unfold read_ip. rewrite Hdown. cbv zeta. simpl negb. cbv iota.
  rewrite (for_port_in_all_refused http msg None (tor_ports self) Hdown).
  unfold print_line. simpl. rewrite <- !app_assoc. reflexivity.
Qed.

(** X4: with the network down (every request raises a
    [requests.RequestException] with message [msg]) the check raises
    nothing and returns [False]; it has tried the direct probe and every
    port, and has printed, in this order, the direct error, the warning,
    one error line per port in the order of the list, and the failure
    line. *)
Theorem network_down_diagnostics
    (http : nat → Request → result Response) (self : t) (w : World) (msg : string) :
  (∀ (n : nat) (req : Request), http n req = Raise (RequestException msg)) →
  check_tor_connection http self w =
  (Return false, after_ports self (tor_ports self),
   {| net_log := net_log w ++ direct_request self
                   :: map (proxied_request self) (tor_ports self);
      stdout := stdout w
                ++ ("Error getting direct IP: " +:+ msg)
                   :: "Warning: Unable to get direct IP. Continuing with Tor check..."
                   :: map (port_error_line msg) (tor_ports self)
                ++ ["Tor connection failed. Unable to connect through any configured port."]
   |}).
Proof.
  exact (check_tor_connection_all_refused http self w msg).
Qed.

Lemma network_down_diagnostics_witness :
  let self := __init__ [9150; 9050] 10 in
  check_tor_connection (scripted []) self empty_world =
  (Return false, set_proxies self (Some (_create_proxies 9050)),
   {| net_log := [direct_request self; proxied_request self 9150;
                  proxied_request self 9050];
      stdout := ["Error getting direct IP: connection refused";
                 "Warning: Unable to get direct IP. Continuing with Tor check...";
                 "Error checking Tor connection on port 9150: connection refused";
                 "Error checking Tor connection on port 9050: connection refused";
                 "Tor connection failed. Unable to connect through any configured port."]
   |}).
Proof.
  cbv zeta.
  apply (network_down_diagnostics (scripted []) (__init__ [9150; 9050] 10)
           empty_world "connection refused").
  intros n req. unfold scripted. by rewrite lookup_nil.
Defined.

(** X5: the direct probe is guarded against [requests.RequestException]
    only.  Any other exception of the direct probe (a [socket.error], the
    [KeyError] of a body without 'ip', ...) is raised by
    [check_tor_connection]; then no port is probed, nothing is printed and
    the client is left as it was. *)
Theorem direct_probe_error_propagates
    (http : nat → Request → result Response) (self : t) (w : World) (e : exn) :
  read_ip (http (length (net_log w)) (direct_request self)) = Raise e →
  (∀ msg, e ≠ RequestException msg) →
  check_tor_connection http self w =
  (Raise e, self, log_request w (direct_request self)).
Proof.
  intros Hprobe Hclass.
  rewrite check_tor_connection_unfold, _get_direct_ip_unfold, Hprobe.
  destruct e as [msg| | | |]; try reflexivity.
  by destruct (Hclass msg).
Qed.

Lemma direct_probe_error_propagates_witness :
  let self := __init__ [9150; 9050] 10 in
  check_tor_connection (scripted [Return no_ip_response]) self empty_world =
  (Raise (KeyError "ip"), self, log_request empty_world (direct_request self)).
Proof.
  cbv zeta.
  apply (direct_probe_error_propagates (scripted [Return no_ip_response])
           (__init__ [9150; 9050] 10) empty_world (KeyError "ip")).
  - reflexivity.
  - intros msg. discriminate.
Defined.

(** X6: the check does not depend on the settings the client holds when
    it starts: its result and the world it leaves are the same whatever
    the [proxies] field was, and so is the client it leaves as soon as the
    loop has run one turn (the list of ports is not empty and the direct
    probe has returned). *)
Theorem check_ignores_previous_proxies
    (http : nat → Request → result Response) (self : t) (w : World)
    (p : option (gmap string string)) :
  (check_tor_connection http (set_proxies self p) w).1.1
    = (check_tor_connection http self w).1.1
  ∧ (check_tor_connection http (set_proxies self p) w).2
    = (check_tor_connection http self w).2
  ∧ (tor_ports self ≠ [] →
     (∀ e, (_get_direct_ip http self w).1.1 ≠ Raise e) →
     check_tor_connection http (set_proxies self p) w = check_tor_connection http self w).
Proof.
  rewrite !check_tor_connection_unfold, !_get_direct_ip_unfold.
  change (direct_request (set_proxies self p)) with (direct_request self).
  destruct (read_ip _) as [ip|e].
  - cbv zeta. change (tor_ports (set_proxies self p)) with (tor_ports self).
    destruct (tor_ports self) as [|port rest].
    + simpl. unfold mret, Py_ret. simpl. repeat split; try reflexivity.
      intros Hne. by destruct Hne.
    + rewrite !for_port_in_cons. cbv zeta.
      change (probe_at http (set_proxies self p)) with (probe_at http self).
      change (proxied_request (set_proxies self p)) with (proxied_request self).
      change (set_proxies (set_proxies self p) (Some (_create_proxies port)))
        with (set_proxies self (Some (_create_proxies port))).
      repeat split; reflexivity.
  - destruct e as [msg| | | |];
      try (repeat split; try reflexivity; intros _ Hraise; by destruct (Hraise _ eq_refl)).
    cbv zeta. change (tor_ports (set_proxies self p)) with (tor_ports self).
    destruct (tor_ports self) as [|port rest].
    + simpl. unfold mret, Py_ret. simpl. repeat split; try reflexivity.
      intros Hne. by destruct Hne.
    + rewrite !for_port_in_cons. cbv zeta.
      change (probe_at http (set_proxies self p)) with (probe_at http self).
      change (proxied_request (set_proxies self p)) with (proxied_request self).
      change (set_proxies (set_proxies self p) (Some (_create_proxies port)))
        with (set_proxies self (Some (_create_proxies port))).
      repeat split; reflexivity.
Qed.

Lemma check_ignores_previous_proxies_witness :
  let self := __init__ [9150; 9050] 10 in
  check_tor_connection tor_running (set_proxies self (Some (_create_proxies 9050))) empty_world
  = check_tor_connection tor_running self empty_world.
Proof.
  cbv zeta.
  apply (proj2 (proj2 (check_ignores_previous_proxies tor_running
                         (__init__ [9150; 9050] 10) empty_world
                         (Some (_create_proxies 9050))))).
  - discriminate.
  - intros e. discriminate.
Defined.

(** X7: the settings determine the port: two different ports never get
    the same proxy settings, for either scheme. *)
Theorem _create_proxies_distinct (port1 port2 : Z) :
  port1 ≠ port2 →
  _create_proxies port1 !! "http" ≠ _create_proxies port2 !! "http"
  ∧ _create_proxies port1 !! "https" ≠ _create_proxies port2 !! "https"
  ∧ _create_proxies port1 ≠ _create_proxies port2.
Proof.
  intros Hne.
  assert (Hinj : ("socks5h://127.0.0.1:" +:+ pretty port1)
                 ≠ ("socks5h://127.0.0.1:" +:+ pretty port2)).
  { intros H. apply (inj (String.app _)) in H. by apply (inj pretty) in H. }
  assert (Hhttp : _create_proxies port1 !! "http" ≠ _create_proxies port2 !! "http").
  { unfold _create_proxies. rewrite !lookup_insert_eq. congruence. }
  split; [exact Hhttp|]. split.
  - unfold _create_proxies. rewrite !lookup_insert_ne by done.
    rewrite !lookup_singleton_eq. congruence.
  - intros Heq. apply Hhttp. by rewrite Heq.
Qed.

Lemma _create_proxies_distinct_witness :
  _create_proxies 9150 !! "http" ≠ _create_proxies 9050 !! "http"
  ∧ _create_proxies 9150 !! "https" ≠ _create_proxies 9050 !! "https"
  ∧ _create_proxies 9150 ≠ _create_proxies 9050.
Proof.
  apply (_create_proxies_distinct 9150 9050). discriminate.
Defined.

(** ** Routing of the requests of a session *)

Section Routing.

Variable http : nat → Request → result Response.

Lemma sends_only_refl (P : Request → Prop) (w : World) : sends_only P w w.
Proof. exists []. split; [by rewrite app_nil_r|constructor]. Qed.

Lemma sends_only_trans (P : Request → Prop) (w1 w2 w3 : World) :
  sends_only P w1 w2 → sends_only P w2 w3 → sends_only P w1 w3.
Proof.
  intros (new1 & Hlog1 & HP1) (new2 & Hlog2 & HP2).
  exists (new1 ++ new2). split.
  - by rewrite Hlog2, Hlog1, app_assoc.
  - by apply Forall_app.
Qed.

Lemma sends_only_print (P : Request → Prop) (w w' : World) (line : string) :
  sends_only P w w' → sends_only P w (print_line w' line).
Proof. intros (new & Hlog & HP). by exists new. Qed.

Lemma sends_only_mono (P Q : Request → Prop) (w w' : World) :
  (∀ req, P req → Q req) → sends_only P w w' → sends_only Q w w'.
Proof.
  intros HPQ (new & Hlog & HP). exists new. split; [exact Hlog|].
  by eapply Forall_impl.
Qed.

Lemma proxied_request_via (ports : list Z) (self : t) (port : Z) :
  port ∈ ports → via_configured_port ports (proxied_request self port).
Proof.
  intros Hport. exists port. split; [exact Hport|].
  unfold proxied_request. simpl. apply lookup_insert_eq.
Qed.

(** The check sends the direct probe and probes through ports of the
    list. *)
Lemma check_tor_connection_sends (self : t) (w : World) :
  sends_only (λ req, req = direct_request self
                     ∨ via_configured_port (tor_ports self) req)
    w (check_tor_connection http self w).2.
Proof.
  destruct (check_tor_connection_probes http self w) as [k Hk].
  eexists. split; [exact Hk|].
  constructor; [by left|].
  apply Forall_forall. intros req Hreq.
  apply list_elem_of_fmap in Hreq as (port & -> & Hport).
  right. apply proxied_request_via.
  by eapply subseteq_take.
Qed.

(** The loop leaves the instance as it was or with the settings of a
    port of the list. *)
Lemma for_port_in_self (direct_ip : option string) (ports : list Z) :
  ∀ (self : t) (w : World),
  (for_port_in http direct_ip ports self w).1.2 = self
  ∨ ∃ port, port ∈ ports
      ∧ (for_port_in http direct_ip ports self w).1.2
        = set_proxies self (Some (_create_proxies port)).
Proof.
  induction ports as [|port rest IH]; intros self w.
  - by left.
  - right. rewrite for_port_in_cons. cbv zeta.
    destruct (verdict _ _ _) as [ip|line|e].
    + exists port. split; [set_solver|reflexivity].
    + destruct (IH (set_proxies self (Some (_create_proxies port)))
                  (print_opt (log_request w (proxied_request self port)) line))
        as [Hsame|(p & Hp & Hset)].
      * exists port. split; [set_solver|]. exact Hsame.
      * exists p. split; [set_solver|]. exact Hset.
    + exists port. split; [set_solver|reflexivity].
Qed.

Lemma check_tor_connection_self (self : t) (w : World) :
  (check_tor_connection http self w).1.2 = self
  ∨ ∃ port, port ∈ tor_ports self
      ∧ (check_tor_connection http self w).1.2
        = set_proxies self (Some (_create_proxies port)).
Proof.
  rewrite check_tor_connection_unfold, _get_direct_ip_unfold.
  destruct (read_ip _) as [ip|e].
  - cbv zeta.
    match goal with
    | |- context [for_port_in http ?d ?ports ?s ?w2] =>
        pose proof (for_port_in_self d ports s w2) as Hloop
    end.
    destruct (for_port_in _ _ _ _ _) as [[[[b|]|e] self3] w3]; exact Hloop.
  - destruct e as [msg| | | |]; try by left.
    cbv zeta.
    match goal with
    | |- context [for_port_in http ?d ?ports ?s ?w2] =>
        pose proof (for_port_in_self d ports s w2) as Hloop
    end.
    destruct (for_port_in _ _ _ _ _) as [[[[b|]|e] self3] w3]; exact Hloop.
Qed.

(** The check keeps [proxies_of_candidate]. *)
Lemma check_tor_connection_candidate (self : t) (w : World) :
  proxies_of_candidate self →
  proxies_of_candidate (check_tor_connection http self w).1.2.
Proof.
  intros Hself.
  destruct (check_tor_connection_self self w) as [->|(port & Hport & ->)];
    [exact Hself|].
  right. exists port. split; [exact Hport|reflexivity].
Qed.

(** A verb call on such a client sends nothing or one request routed
    through a port of the list. *)
Lemma call_verb_sends (m : Verb) (a : list pyval) (kw : gmap string pyval)
    (self : t) (w : World) :
  proxies_of_candidate self →
  sends_only (via_configured_port (tor_ports self)) w (call_verb http m a kw self w).2.
Proof.
  intros [Hnone|(port & Hport & Hsome)]; rewrite call_verb_unfold;
    (destruct (collides ["self"; "method"] kw); [apply sends_only_refl|]).
  - rewrite Hnone. apply sends_only_refl.
  - rewrite Hsome. simpl. rewrite bool_decide_eq_true_2.
    + exists [ {| method := m; args := a;
                  kwargs := <["proxies" := PyDict (PyStr <$> _create_proxies port)]> kw |} ].
      split; [reflexivity|]. constructor; [|constructor].
      exists port. split; [exact Hport|]. simpl. apply lookup_insert_eq.
    + unfold _create_proxies. apply insert_non_empty.
Qed.

(** One operation of a session. *)
Lemma run_op_routed (self0 : t) (op : Op) (self : t) (w : World) :
  tor_ports self = tor_ports self0 →
  direct_request self = direct_request self0 →
  proxies_of_candidate self →
  (tor_ports (run_op http op self w).1 = tor_ports self0
   ∧ direct_request (run_op http op self w).1 = direct_request self0
   ∧ proxies_of_candidate (run_op http op self w).1)
  ∧ sends_only (λ req, req = direct_request self0
                       ∨ via_configured_port (tor_ports self0) req)
      w (run_op http op self w).2.
Proof.
  intros Hports Hdirect Hself.
  pose proof (run_op_config http op self w) as (Hp & Ht & Hu).
  destruct op as [|m a kw]; simpl in *.
  - pose proof (check_tor_connection_candidate self w Hself) as Hcand.
    pose proof (check_tor_connection_sends self w) as Hsends.
    destruct (check_tor_connection http self w) as [[r self'] w']. simpl in *.
    split; [split; [congruence|split; [|exact Hcand]]|].
    + unfold direct_request in *. rewrite Ht, Hu. exact Hdirect.
    + rewrite <- Hports, <- Hdirect. exact Hsends.
  - pose proof (call_verb_self http m a kw self w) as Hsame.
    pose proof (call_verb_sends m a kw self w Hself) as Hsends.
    destruct (call_verb http m a kw self w) as [[r self'] w']. simpl in *. subst self'.
    split; [done|].
    rewrite <- Hports. eapply sends_only_mono; [|exact Hsends].
    intros req Hreq. by right.
Qed.

Lemma run_ops_routed (self0 : t) (ops : list Op) :
  ∀ (self : t) (w : World),
  tor_ports self = tor_ports self0 →
  direct_request self = direct_request self0 →
  proxies_of_candidate self →
  proxies_of_candidate (run_ops http ops self w).1
  ∧ sends_only (λ req, req = direct_request self0
                       ∨ via_configured_port (tor_ports self0) req)
      w (run_ops http ops self w).2.
Proof.
  induction ops as [|op ops IH]; intros self w Hports Hdirect Hself.
  - split; [exact Hself|apply sends_only_refl].
  - simpl.
    pose proof (run_op_routed self0 op self w Hports Hdirect Hself)
      as ((Hports' & Hdirect' & Hself') & Hsends).
    destruct (run_op http op self w) as [self' w']. simpl in *.
    destruct (IH self' w' Hports' Hdirect' Hself') as [Hcand Hsends'].
    split; [exact Hcand|]. by eapply sends_only_trans.
Qed.

End Routing.

(** X8: over a whole session on a freshly built client (any sequence of
    checks and verb calls, whatever they return or raise) the [proxies]
    field is [None] or the settings of one of the candidate ports, and
    every request sent is either the direct IP probe of the check or
    carries the settings of one of the candidate ports as its 'proxies'
    option: no request of the caller ever leaves without them. *)
Theorem session_requests_are_routed
    (http : nat → Request → result Response) (ports : list Z) (timeout : Z)
    (ops : list Op) (w : World) :
  let fresh := __init__ ports timeout in
  proxies_of_candidate (run_ops http ops fresh w).1
  ∧ sends_only (λ req, req = direct_request fresh ∨ via_configured_port ports req)
      w (run_ops http ops fresh w).2.
Proof.
  cbv zeta.
  apply (run_ops_routed http (__init__ ports timeout) ops (__init__ ports timeout) w);
    [reflexivity|reflexivity|by left].
Qed.

(** ** The example script *)

Section ScriptLemmas.

Variable http : nat → Request → result Response.

Let fresh : t := __init__ default_tor_ports default_timeout.

Let routed (req : Request) : Prop :=
  req = direct_request fresh ∨ via_configured_port [9150; 9050] req.

(** A check on a fresh default client, as the script runs it. *)
Lemma script_check (w : World) :
  sends_only routed w (check_tor_connection http fresh w).2
  ∧ tor_ports (check_tor_connection http fresh w).1.2 = [9150; 9050]
  ∧ proxies_of_candidate (check_tor_connection http fresh w).1.2.
Proof.
  split; [exact (check_tor_connection_sends http fresh w)|]. split.
  - destruct (check_tor_connection http fresh w) as [[r tor] w'] eqn:Hcheck.
    apply check_tor_connection_config in Hcheck as (Hports & _ & _).
    simpl. rewrite Hports. reflexivity.
  - apply check_tor_connection_candidate. by left.
Qed.

(** A verb call of the script on a checked client. *)
Lemma script_verb (m : Verb) (a : list pyval) (kw : gmap string pyval)
    (tor : t) (w : World) :
  tor_ports tor = [9150; 9050] →
  proxies_of_candidate tor →
  sends_only routed w (call_verb http m a kw tor w).2
  ∧ (call_verb http m a kw tor w).1.2 = tor.
Proof.
  intros Hports Hcand. split; [|apply call_verb_self].
  pose proof (call_verb_sends http m a kw tor w Hcand) as Hsends.
  rewrite Hports in Hsends.
  eapply sends_only_mono; [|exact Hsends].
  intros req Hreq. by right.
Qed.

Lemma fetch_webpage_body_sends (tor : t) (url : pyval) (w : World) :
  tor_ports tor = [9150; 9050] →
  proxies_of_candidate tor →
  sends_only routed w (ExampleScript.fetch_webpage_body http tor url w).2.
Proof.
  intros Hports Hcand. unfold ExampleScript.fetch_webpage_body.
  destruct (script_verb GET [url] ∅ tor w Hports Hcand) as [Hsends _].
  change (get http) with (call_verb http GET).
  destruct (call_verb http GET [url] ∅ tor w) as [[[response|e] tor'] w'];
    exact Hsends.
Qed.

Lemma fetch_webpage_sends (url : pyval) (w : World) :
  sends_only routed w (ExampleScript.fetch_webpage http [url] ∅ w).2.
Proof.
  unfold ExampleScript.fetch_webpage, tor_request. fold fresh.
  destruct (script_check w) as (Hsends & Hports & Hcand).
  destruct (check_tor_connection http fresh w) as [[[[|]|e] tor] w'];
    cbn [fst snd] in *; try exact Hsends.
  unfold ExampleScript.fetch_webpage_func.
  rewrite bool_decide_eq_true_2 by apply dom_empty_L.
  eapply sends_only_trans; [exact Hsends|].
  by apply fetch_webpage_body_sends.
Qed.

Lemma main_try_sends (w : World) :
  sends_only routed w (ExampleScript.main_try http w).2.
Proof.
  unfold ExampleScript.main_try. cbv zeta. fold fresh.
  set (w0 := print_line w "Example 1: Using decorator").
  assert (H0 : sends_only routed w w0) by apply sends_only_print, sends_only_refl.
  pose proof (fetch_webpage_sends (PyStr "https://example.com") w0) as H1.
  destruct (ExampleScript.fetch_webpage http _ _ w0) as [[content|e] w1];
    cbn [fst snd] in *.
  2: exact (sends_only_trans _ _ _ _ H0 H1).
  pose proof (sends_only_trans _ _ _ _ H0 H1) as H1'.
  set (w2 := print_line (print_line w1 _) _).
  assert (H2 : sends_only routed w w2) by (by do 2 apply sends_only_print).
  destruct (script_check w2) as (H3 & Hports & Hcand).
  pose proof (sends_only_trans _ _ _ _ H2 H3) as H3'.
  destruct (check_tor_connection http fresh w2) as [[[[|]|e] tor] w3];
    cbn [fst snd] in *; try exact H3'.
  destruct (script_verb GET [PyStr "https://example.com"] ∅ tor w3 Hports Hcand)
    as [H4 Htor].
  change (get http) with (call_verb http GET).
  destruct (call_verb http GET _ _ tor w3) as [[[response|e] tor'] w4];
    cbn [fst snd] in *.
  2: exact (sends_only_trans _ _ _ _ H3' H4).
  subst tor'.
  pose proof (sends_only_trans _ _ _ _ H3' H4) as H4'.
  set (w5 := print_line w4 _).
  assert (H4'' : sends_only routed w w5) by (by apply sends_only_print).
  destruct (script_verb POST [PyStr "https://example.com/api"]
              {[ "json" := PyDict {[ "key" := PyStr "value" ]} ]} tor w5 Hports Hcand)
    as [H5 _].
  change (post http) with (call_verb http POST).
  destruct (call_verb http POST _ _ tor w5) as [[[response'|e] tor'] w6];
    cbn [fst snd] in *.
  - apply sends_only_print. exact (sends_only_trans _ _ _ _ H4'' H5).
  - exact (sends_only_trans _ _ _ _ H4'' H5).
Qed.

(** [main] with the network down. *)
Lemma main_all_refused (w : World) (msg : string) :
  (∀ (n : nat) (req : Request), http n req = Raise (RequestException msg)) →
  ExampleScript.main http w =
  (Return tt,
   {| net_log := net_log w ++ [direct_request fresh; proxied_request fresh 9150;
                               proxied_request fresh 9050];
      stdout := stdout w
                ++ ["Example 1: Using decorator";
                    "Error getting direct IP: " +:+ msg;
                    "Warning: Unable to get direct IP. Continuing with Tor check...";
                    port_error_line msg 9150;
                    port_error_line msg 9050;
                    "Tor connection failed. Unable to connect through any configured port.";
                    "Error: Tor connection failed. Make sure Tor is running and configured correctly."]
   |}).
Proof.
  intros Hdown.
  unfold ExampleScript.main, ExampleScript.main_try, ExampleScript.fetch_webpage,
    tor_request. cbv zeta.
  rewrite (check_tor_connection_all_refused http _ _ msg Hdown).
  unfold print_line. simpl. rewrite <- !app_assoc. reflexivity.
Qed.

End ScriptLemmas.

(** X9: [fetch_webpage(url)] contacts the page only through Tor.  Called
    with one positional argument, or with the keyword 'url', it runs the
    check on a fresh default client; if the check returns [True] it sends
    exactly one more request, a GET of [url] whose 'proxies' option is the
    settings of port 9150 or 9050, and returns the text of the response
    (an exception of that request is raised to the caller); otherwise it
    raises and sends nothing after the probes of the check. *)
Theorem fetch_webpage_goes_through_tor
    (http : nat → Request → result Response) (url : pyval) (w : World) :
  let fresh := __init__ default_tor_ports default_timeout in
  ExampleScript.fetch_webpage http [] {[ "url" := url ]} w
    = ExampleScript.fetch_webpage http [url] ∅ w
  ∧ match check_tor_connection http fresh w with
    | (Return true, tor, w') =>
        ∃ port, port ∈ [9150; 9050]
          ∧ let req := {| method := GET; args := [url];
                          kwargs := {[ "proxies" :=
                                         proxies_val (Some (_create_proxies port)) ]} |} in
            ExampleScript.fetch_webpage http [url] ∅ w =
            (match http (length (net_log w')) req with
             | Return response => Return (text response)
             | Raise e => Raise e
             end, log_request w' req)
    | (Return false, _, w') =>
        ExampleScript.fetch_webpage http [url] ∅ w =
        (Raise (Exception
           "Tor connection failed. Make sure Tor is running and configured correctly."),
         w')
    | (Raise e, _, w') =>
        ExampleScript.fetch_webpage http [url] ∅ w = (Raise e, w')
    end.
Proof.
  cbv zeta. unfold ExampleScript.fetch_webpage, tor_request.
  destruct (check_tor_connection http _ w) as [[[[|]|e] tor] w'] eqn:Hcheck;
    try (split; reflexivity).
  unfold ExampleScript.fetch_webpage_func.
  rewrite lookup_singleton_eq, dom_singleton_L, dom_empty_L.
  rewrite !bool_decide_eq_true_2 by done.
  split; [reflexivity|].
  apply check_tor_connection_true in Hcheck as (port & Hport & -> & _).
  exists port. split; [exact Hport|]. cbv zeta.
  unfold ExampleScript.fetch_webpage_body.
  change (get http) with (call_verb http GET).
  rewrite call_verb_unfold, collides_none by apply lookup_empty. simpl.
  rewrite bool_decide_eq_true_2 by (unfold _create_proxies; apply insert_non_empty).
  rewrite insert_empty.
  destruct (http _ _); reflexivity.
Qed.

(** X10: [main()] never raises, whatever the network does, and every
    request it sends is either the direct IP probe of a check or carries
    the proxy settings of port 9150 or 9050: example.com is never
    contacted directly. *)
Theorem main_never_raises_and_is_routed
    (http : nat → Request → result Response) (w : World) :
  (ExampleScript.main http w).1 = Return tt
  ∧ sends_only
      (λ req, req = direct_request (__init__ default_tor_ports default_timeout)
              ∨ via_configured_port [9150; 9050] req)
      w (ExampleScript.main http w).2.
Proof.
  unfold ExampleScript.main.
  pose proof (main_try_sends http w) as Hsends.
  destruct (ExampleScript.main_try http w) as [[[]|e] w']; simpl in *.
  - split; [reflexivity|exact Hsends].
  - split; [reflexivity|]. by apply sends_only_print.
Qed.

(** X11: with the network down (every request raises a
    [requests.RequestException] with message [msg]) [main()] makes the
    three probes of the first check and stops: it prints the header of the
    first example, the lines of the failed check and the error of the
    decorator; the second example is not run and example.com is not
    contacted. *)
Theorem main_with_network_down
    (http : nat → Request → result Response) (w : World) (msg : string) :
  (∀ (n : nat) (req : Request), http n req = Raise (RequestException msg)) →
  let fresh := __init__ default_tor_ports default_timeout in
  ExampleScript.main http w =
  (Return tt,
   {| net_log := net_log w ++ [direct_request fresh; proxied_request fresh 9150;
                               proxied_request fresh 9050];
      stdout := stdout w
                ++ ["Example 1: Using decorator";
                    "Error getting direct IP: " +:+ msg;
                    "Warning: Unable to get direct IP. Continuing with Tor check...";
                    "Error checking Tor connection on port 9150: " +:+ msg;
                    "Error checking Tor connection on port 9050: " +:+ msg;
                    "Tor connection failed. Unable to connect through any configured port.";
                    "Error: Tor connection failed. Make sure Tor is running and configured correctly."]
   |}).
Proof.
  intros Hdown. exact (main_all_refused http w msg Hdown).
Qed.

Lemma main_with_network_down_witness :
  ExampleScript.main (scripted []) empty_world =
  (Return tt,
   {| net_log := [direct_request (__init__ [9150; 9050] 10);
                  proxied_request (__init__ [9150; 9050] 10) 9150;
                  proxied_request (__init__ [9150; 9050] 10) 9050];
      stdout := ["Example 1: Using decorator";
                 "Error getting direct IP: connection refused";
                 "Warning: Unable to get direct IP. Continuing with Tor check...";
                 "Error checking Tor connection on port 9150: connection refused";
                 "Error checking Tor connection on port 9050: connection refused";
                 "Tor connection failed. Unable to connect through any configured port.";
                 "Error: Tor connection failed. Make sure Tor is running and configured correctly."]
   |}).
Proof.
  apply (main_with_network_down (scripted []) empty_world "connection refused").
  intros n req. unfold scripted. by rewrite lookup_nil.
Defined.

(** ** Edge cases of the check and of the verb methods *)

(** X12: a client with an empty list of ports can never be verified:
    whatever the network answers, the check sends the direct probe and
    nothing else, does not return [True], and leaves the client as it
    was. *)
Theorem no_ports_never_verifies
    (http : nat → Request → result Response) (self : t) (w : World) :
  tor_ports self = [] →
  (check_tor_connection http self w).1.1 ≠ Return true
  ∧ (check_tor_connection http self w).1.2 = self
  ∧ net_log (check_tor_connection http self w).2 = net_log w ++ [direct_request self].
Proof.
  intros Hports.
  rewrite check_tor_connection_unfold, _get_direct_ip_unfold.
  destruct (read_ip _) as [ip|e].
  - cbv zeta. rewrite Hports. simpl.
    destruct (negb (truthy_str ip)); simpl; repeat split; discriminate.
  - destruct e; cbv zeta; try rewrite Hports; simpl; repeat split; discriminate.
Qed.

Lemma no_ports_never_verifies_witness :
  let self := __init__ [] 10 in
  (check_tor_connection tor_running self empty_world).1.1 ≠ Return true
  ∧ (check_tor_connection tor_running self empty_world).1.2 = self
  ∧ net_log (check_tor_connection tor_running self empty_world).2 =
    net_log empty_world ++ [direct_request self].
Proof.
  cbv zeta.
  apply (no_ports_never_verifies tor_running (__init__ [] 10) empty_world).
  reflexivity.
Defined.

(** X13: whatever the state of the client, a verb call does one of
    three things.  If a keyword is named 'self' or 'method' it raises a
    [TypeError] and sends nothing.  Otherwise, if the [proxies] field is
    [None] or an empty dict it raises the configuration error and sends
    nothing.  Otherwise it sends exactly one request, whose 'proxies'
    option is the non-empty settings of the client even when the caller
    passed a 'proxies' option of its own.  In all cases the client is
    unchanged. *)
Theorem verb_call_never_goes_direct
    (http : nat → Request → result Response)
    (m : Verb) (a : list pyval) (kw : gmap string pyval) (self : t) (w : World) :
  ((is_Some (kw !! "self") ∨ is_Some (kw !! "method"))
   ∧ call_verb http m a kw self w = (Raise (OtherError "TypeError"), self, w))
  ∨ (kw !! "self" = None ∧ kw !! "method" = None
     ∧ (proxies self = None ∨ proxies self = Some ∅)
     ∧ call_verb http m a kw self w =
       (Raise (Exception "Tor proxy not configured. Run check_tor_connection() first."),
        self, w))
  ∨ (∃ settings req,
       kw !! "self" = None ∧ kw !! "method" = None
       ∧ proxies self = Some settings ∧ settings ≠ ∅
       ∧ call_verb http m a kw self w =
         (http (length (net_log w)) req, self, log_request w req)
       ∧ kwargs req !! "proxies" = Some (PyDict (PyStr <$> settings))).
Proof.
  destruct (kw !! "self") as [v|] eqn:Hself.
  { left. split; [left; by eexists|].
    rewrite call_verb_unfold, collides_some; [reflexivity|].
    left. rewrite Hself. by eexists. }
  destruct (kw !! "method") as [v|] eqn:Hmethod.
  { left. split; [right; by eexists|].
    rewrite call_verb_unfold, collides_some; [reflexivity|].
    right. rewrite Hmethod. by eexists. }
  right. rewrite call_verb_unfold, collides_none by done.
  destruct (proxies self) as [settings|] eqn:Hproxies; simpl.
  - case_bool_decide as Hempty.
    + right. eexists settings, _. repeat split; try done.
      simpl. apply lookup_insert_eq.
    + left. repeat split; try done. right. f_equal.
      destruct (decide (settings = ∅)) as [->|Hne]; [reflexivity|by destruct Hempty].
  - left. repeat split; try done. by left.
Qed.

Section ProbeShape.

Variable http : nat → Request → result Response.

(** The shape of an IP probe of [self]. *)
Lemma direct_request_shape (self : t) :
  method (direct_request self) = GET
  ∧ args (direct_request self) = [PyStr (ip_check_url self)]
  ∧ kwargs (direct_request self) !! "timeout" = Some (PyInt (timeout self))
  ∧ kwargs (direct_request self) !! "proxies" = None.
Proof.
  unfold direct_request. simpl. repeat split.
Qed.

Lemma proxied_request_shape (self : t) (port : Z) :
  method (proxied_request self port) = GET
  ∧ args (proxied_request self port) = [PyStr (ip_check_url self)]
  ∧ kwargs (proxied_request self port) !! "timeout" = Some (PyInt (timeout self)).
Proof.
  unfold proxied_request. simpl. repeat split.
Qed.

End ProbeShape.

(** X14: the timeout of the client is applied to the IP probes and to
    nothing else.  Every request [check_tor_connection] sends is a GET of
    the IP-check URL with 'timeout' set to the timeout of the client, the
    first of them without a 'proxies' option; a verb call sends the
    'timeout' option the caller passed, or none, whatever the timeout of
    the client. *)
Theorem timeout_applies_to_probes_only
    (http : nat → Request → result Response) (self : t) (w : World)
    (m : Verb) (a : list pyval) (kw : gmap string pyval) :
  (∃ first others,
     net_log (check_tor_connection http self w).2 = net_log w ++ first :: others
     ∧ kwargs first !! "proxies" = None
     ∧ Forall (λ req, method req = GET
                      ∧ args req = [PyStr (ip_check_url self)]
                      ∧ kwargs req !! "timeout" = Some (PyInt (timeout self)))
         (first :: others))
  ∧ Forall (λ req, kwargs req !! "timeout" = kw !! "timeout")
      (drop (length (net_log w)) (net_log (call_verb http m a kw self w).2)).
Proof.
  split.
  - destruct (check_tor_connection_probes http self w) as [k Hk].
    eexists _, _. split; [exact Hk|]. split; [apply direct_request_shape|].
    constructor.
    + pose proof (direct_request_shape self) as (? & ? & ? & _). done.
    + apply Forall_forall. intros req Hreq.
      apply list_elem_of_fmap in Hreq as (port & -> & _).
      apply proxied_request_shape.
  - rewrite call_verb_unfold.
    destruct (collides ["self"; "method"] kw); [simpl; rewrite drop_all; constructor|].
    destruct (truthy_opt_dict (proxies self)); simpl.
    + rewrite drop_app_length. constructor; [|constructor].
      simpl. by rewrite lookup_insert_ne.
    + rewrite drop_all. constructor.
Qed.
